(** * QR_Decoder: the barcode desk tool of [main.py]

    A shallow embedding of the event handlers of [main.py]
    ([decode_barcodes_over_feed], [cam_feed] with its inner [update_frame],
    [take_picture], [detect_code], [select_link]) as state-passing
    functions over the global objects of the script, followed by the
    properties of the dedup loop, the still-image scan and the link
    dispatcher.

    The third-party libraries (OpenCV, pyzbar, pixel-level numpy) are an
    interface, [Vision]; every general theorem holds for any implementation
    of it.  [Module Rig] gives one implementation on explicit pixel arrays,
    used to run the handlers on concrete inputs. *)

From Stdlib Require Import ZArith String Ascii List Lia.
From Stdlib.Strings Require Import Byte.
From stdpp Require Import base option list gmap strings.

Local Open Scope Z_scope.
Local Open Scope string_scope.

(** ** Python values *)

(** A Python [str] is kept as the string of its UTF-8 code units: equality,
    concatenation and [startswith] agree with the ones on code points. *)
Definition str := string.
Definition bytes := list byte.

(** Exceptions that can leave the handlers, by class. *)
Inductive Exn :=
| UnicodeDecodeError
| ValueError (msg : str)
| FileNotFoundError (msg : str)
| OSError (msg : str)          (* PermissionError, PIL.UnidentifiedImageError, ... *)
| IndexError
| AttributeError
| TclError
| cv2_error.

(** [str(e)] *)
Definition str_of_exn (e : Exn) : str :=
  match e with
  | ValueError m | FileNotFoundError m | OSError m => m
  | UnicodeDecodeError => "'utf-8' codec can't decode bytes"
  | IndexError => "tuple index out of range"
  | AttributeError => "'NoneType' object has no attribute"
  | TclError => "invalid command name"
  | cv2_error => "OpenCV error"
  end.

(** [isinstance(e, (FileNotFoundError, ValueError))]; [UnicodeDecodeError]
    derives from [ValueError], the other [OSError]s are not caught. *)
Definition is_FileNotFound_or_ValueError (e : Exn) : bool :=
  match e with
  | FileNotFoundError _ | ValueError _ | UnicodeDecodeError => true
  | _ => false
  end.

(** *** [bytes.decode("utf-8")] (strict) *)

Definition in_range (lo hi b : N) : bool := ((lo <=? b) && (b <=? hi))%N.
Definition cont (b : N) : bool := in_range 128 191 b.

(** Well-formed UTF-8 byte sequences (Unicode table 3-7): no overlong
    forms, no surrogates, nothing above U+10FFFF. *)
Fixpoint utf8_valid (bs : list N) : bool :=
  match bs with
  | [] => true
  | b0 :: t =>
      if (b0 <=? 127)%N then utf8_valid t
      else if in_range 194 223 b0 then
        match t with
        | b1 :: t1 => cont b1 && utf8_valid t1
        | _ => false
        end
      else if in_range 224 239 b0 then
        match t with
        | b1 :: b2 :: t2 =>
            (if (b0 =? 224)%N then in_range 160 191 b1
             else if (b0 =? 237)%N then in_range 128 159 b1
             else cont b1)
            && cont b2 && utf8_valid t2
        | _ => false
        end
      else if in_range 240 244 b0 then
        match t with
        | b1 :: b2 :: b3 :: t3 =>
            (if (b0 =? 240)%N then in_range 144 191 b1
             else if (b0 =? 244)%N then in_range 128 143 b1
             else cont b1)
            && cont b2 && cont b3 && utf8_valid t3
        | _ => false
        end
      else false
  end.

Definition utf8_decode (data : bytes) : Exn + str :=
  if utf8_valid (map Byte.to_N data)
  then inr (string_of_list_byte data)
  else inl UnicodeDecodeError.

(** The [bytes] literal [b"..."]. *)
Definition bytes_lit (s : string) : bytes := list_byte_of_string s.

(** [s.startswith(prefix)] *)
Definition startswith (s prefix : str) : bool := String.prefix prefix s.

(** ** pyzbar: one detected symbol, [Decoded(data, type, rect, ...)] *)

Record Decoded := mkDecoded {
  data : bytes;
  type : str;
  rect : Z * Z * Z * Z          (* left, top, width, height *)
}.

(** ** The image libraries as an interface *)

Inductive ColorConversion := COLOR_BGR2RGB | COLOR_BGR2GRAY.
Inductive Font := FONT_HERSHEY_SIMPLEX.
Definition Color := (Z * Z * Z)%type.
Definition Point := (Z * Z)%type.

Class Vision := {
  ndarray : Type;
  (** [a.size]: number of elements *)
  np_size : ndarray -> Z;
  (** [cv2.flip(frame, 1)]; the frame of a failed read is [None] *)
  cv2_flip : option ndarray -> Z -> option ndarray;
  (** [cv2.cvtColor(a, code)]; [cv2.error] on an unsupported layout *)
  cv2_cvtColor : ndarray -> ColorConversion -> Exn + ndarray;
  (** [cv2.rectangle(img, pt1, pt2, color, thickness)], drawn in place *)
  cv2_rectangle : ndarray -> Point -> Point -> Color -> Z -> ndarray;
  (** [cv2.putText(img, text, org, fontFace, fontScale, color, thickness)];
      the scale is given in halves ([0.5] is [1]) *)
  cv2_putText : ndarray -> str -> Point -> Font -> Z -> Color -> Z -> ndarray;
  (** what [cv2.imwrite] to a [.jpg] leaves to be read back *)
  jpeg : ndarray -> ndarray;
  (** [pyzbar.decode(a)] *)
  decode : ndarray -> list Decoded
}.

Section Program.
Context `{Vision}.

(** A PIL image; [PIL.Image.fromarray] wraps an array and [np.array]
    copies the pixels out again. *)
Record Image := fromarray { np_array : ndarray }.

(** ** The global objects of the script *)

(** [cv2.VideoCapture]: [frames] is what the device will deliver, a failed
    grab being [None]. *)
Record VideoCapture := mkCap {
  isOpened : bool;
  frames : list (option ndarray)
}.

(** A Treeview item: [tree.insert("", tk.END, text=..., values=(id, data))]. *)
Inductive TreeText := TextInt (i : Z) | TextStr (s : str).
Record Row := mkRow { row_text : TreeText; row_id : Z; row_data : str }.

(** What [PIL.Image.open] finds at a path that exists. *)
Inductive File :=
| Picture (a : ndarray)        (* decodes to these pixels *)
| Junk                         (* not an image: UnidentifiedImageError *)
| Locked.                      (* no permission: PermissionError *)

Record World := mkWorld {
  cap : option VideoCapture;             (* global [cap] *)
  seen_barcodes : gset string;           (* global [seen_barcodes] *)
  camera_source : Z;                     (* the radio buttons' IntVar *)
  tree : list Row;                       (* children of the Treeview *)
  selection : list nat;                  (* selected items, by position *)
  cam_label : option Image;              (* image shown by [cam_label] *)
  timers : list Z;                       (* pending [label.after(ms, update_frame)] *)
  browser : list str;                    (* [webbrowser.open] calls, oldest first *)
  alerts : list (str * str);             (* [pymsgbox.alert(text, title)] *)
  confirms : list (str * str);           (* [pymsgbox.confirm(text, title)] *)
  stdout : list str;                     (* [print] *)
  detector_runs : list ndarray;          (* arguments of [decode], oldest first *)
  files : gmap string File;              (* the working directory *)
  devices : Z -> option (list (option ndarray))   (* the cameras *)
}.

Definition set_cap c w :=
  mkWorld c (seen_barcodes w) (camera_source w) (tree w) (selection w)
    (cam_label w) (timers w) (browser w) (alerts w) (confirms w) (stdout w)
    (detector_runs w) (files w) (devices w).
Definition set_seen s w :=
  mkWorld (cap w) s (camera_source w) (tree w) (selection w)
    (cam_label w) (timers w) (browser w) (alerts w) (confirms w) (stdout w)
    (detector_runs w) (files w) (devices w).
Definition set_tree t sel w :=
  mkWorld (cap w) (seen_barcodes w) (camera_source w) t sel
    (cam_label w) (timers w) (browser w) (alerts w) (confirms w) (stdout w)
    (detector_runs w) (files w) (devices w).
Definition set_cam_label i w :=
  mkWorld (cap w) (seen_barcodes w) (camera_source w) (tree w) (selection w)
    i (timers w) (browser w) (alerts w) (confirms w) (stdout w)
    (detector_runs w) (files w) (devices w).
Definition set_timers t w :=
  mkWorld (cap w) (seen_barcodes w) (camera_source w) (tree w) (selection w)
    (cam_label w) t (browser w) (alerts w) (confirms w) (stdout w)
    (detector_runs w) (files w) (devices w).
Definition set_browser l w :=
  mkWorld (cap w) (seen_barcodes w) (camera_source w) (tree w) (selection w)
    (cam_label w) (timers w) l (alerts w) (confirms w) (stdout w)
    (detector_runs w) (files w) (devices w).
Definition set_alerts l w :=
  mkWorld (cap w) (seen_barcodes w) (camera_source w) (tree w) (selection w)
    (cam_label w) (timers w) (browser w) l (confirms w) (stdout w)
    (detector_runs w) (files w) (devices w).
Definition set_confirms l w :=
  mkWorld (cap w) (seen_barcodes w) (camera_source w) (tree w) (selection w)
    (cam_label w) (timers w) (browser w) (alerts w) l (stdout w)
    (detector_runs w) (files w) (devices w).
Definition set_stdout l w :=
  mkWorld (cap w) (seen_barcodes w) (camera_source w) (tree w) (selection w)
    (cam_label w) (timers w) (browser w) (alerts w) (confirms w) l
    (detector_runs w) (files w) (devices w).
Definition set_detector_runs l w :=
  mkWorld (cap w) (seen_barcodes w) (camera_source w) (tree w) (selection w)
    (cam_label w) (timers w) (browser w) (alerts w) (confirms w) (stdout w)
    l (files w) (devices w).
Definition set_files f w :=
  mkWorld (cap w) (seen_barcodes w) (camera_source w) (tree w) (selection w)
    (cam_label w) (timers w) (browser w) (alerts w) (confirms w) (stdout w)
    (detector_runs w) f (devices w).
Definition set_camera_source v w :=
  mkWorld (cap w) (seen_barcodes w) v (tree w) (selection w)
    (cam_label w) (timers w) (browser w) (alerts w) (confirms w) (stdout w)
    (detector_runs w) (files w) (devices w).

(** ** Statements: state passing with exceptions *)

Definition M (A : Type) : Type := World -> (Exn + A) * World.

Definition ret {A} (a : A) : M A := fun w => (inr a, w).
Definition raise {A} (e : Exn) : M A := fun w => (inl e, w).
Definition bind {A B} (m : M A) (k : A -> M B) : M B :=
  fun w => match m w with
           | (inr a, w') => k a w'
           | (inl e, w') => (inl e, w')
           end.
(** the body of a [try], its exception handed to the [except] clauses *)
Definition attempt {A} (m : M A) : M (Exn + A) :=
  fun w => let (r, w') := m w in (inr r, w').
Definition lift {A} (r : Exn + A) : M A := fun w => (r, w).
Definition gets {A} (f : World -> A) : M A := fun w => (inr (f w), w).
Definition modify (f : World -> World) : M unit := fun w => (inr tt, f w).

Notation "x <- m ;; k" := (bind m (fun x => k))
  (at level 100, m at next level, right associativity).
Notation "m ;;; k" := (bind m (fun _ => k))
  (at level 100, right associativity).

(** ** The calls into the outside world *)

Definition webbrowser_open (url : str) : M unit :=
  modify (fun w => set_browser (browser w ++ [url]) w).
Definition pymsgbox_alert (text title : str) : M unit :=
  modify (fun w => set_alerts (alerts w ++ [(text, title)]) w).
(** [response] is the button the user presses *)
Definition pymsgbox_confirm (text title : str) (response : str) : M str :=
  modify (fun w => set_confirms (confirms w ++ [(text, title)]) w) ;;;
  ret response.
Definition print (s : str) : M unit :=
  modify (fun w => set_stdout (stdout w ++ [s]) w).
Definition pyzbar_decode (a : ndarray) : M (list Decoded) :=
  modify (fun w => set_detector_runs (detector_runs w ++ [a]) w) ;;;
  ret (decode a).
Definition tree_insert (text : TreeText) (values : Z * str) : M unit :=
  modify (fun w => set_tree (tree w ++ [mkRow text (fst values) (snd values)])
                            (selection w) w).
Definition seen_barcodes_add (s : str) : M unit :=
  modify (fun w => set_seen (seen_barcodes w ∪ {[ s ]}) w).
Definition label_after (ms : Z) : M unit :=
  modify (fun w => set_timers (timers w ++ [ms]) w).
Definition label_configure (img : Image) : M unit :=
  modify (set_cam_label (Some img)).

(** [cap.release()] *)
Definition release (c : VideoCapture) : VideoCapture := mkCap false (frames c).

(** [cap.read()]: the pair [(ret, frame)] and the capture afterwards *)
Definition read (c : VideoCapture) : (bool * option ndarray) * VideoCapture :=
  if isOpened c then
    match frames c with
    | Some f :: rest => ((true, Some f), mkCap true rest)
    | None :: rest => ((false, None), mkCap true rest)
    | [] => ((false, None), c)
    end
  else ((false, None), c).

(** [cap.read()] on the global [cap] *)
Definition cap_read : M (bool * option ndarray) :=
  c <- gets cap ;;
  match c with
  | None => raise AttributeError
  | Some c =>
      let (r, c') := read c in
      modify (set_cap (Some c')) ;;; ret r
  end.

(** [cv2.VideoCapture(index)] *)
Definition cv2_VideoCapture (index : Z) : M VideoCapture :=
  d <- gets devices ;;
  match d index with
  | Some fs => ret (mkCap true fs)
  | None => ret (mkCap false [])
  end.

(** [cap.set(prop, value)]: the settings of the device do not enter the
    model. *)
Definition cap_set (prop value : Z) : M unit := ret tt.
Definition CAP_PROP_FOURCC : Z := 6.
Definition VideoWriter_fourcc (c1 c2 c3 c4 : ascii) : Z :=
  Z.of_N (N_of_ascii c1) + Z.shiftl (Z.of_N (N_of_ascii c2)) 8
  + Z.shiftl (Z.of_N (N_of_ascii c3)) 16 + Z.shiftl (Z.of_N (N_of_ascii c4)) 24.

(** [PIL.Image.open(path)] followed by the load that [np.array] forces *)
Definition PIL_Image_open (path : str) : M Image :=
  fs <- gets files ;;
  match fs !! path with
  | None =>
      raise (FileNotFoundError
               ("[Errno 2] No such file or directory: '" ++ path ++ "'"))
  | Some (Picture a) => ret (fromarray a)
  | Some Junk => raise (OSError ("cannot identify image file '" ++ path ++ "'"))
  | Some Locked => raise (OSError ("[Errno 13] Permission denied: '" ++ path ++ "'"))
  end.

(** [cv2.imwrite(path, frame)] *)
Definition cv2_imwrite (path : str) (frame : option ndarray) : M unit :=
  match frame with
  | None => raise cv2_error
  | Some a => modify (fun w => set_files (<[ path := Picture (jpeg a) ]> (files w)) w)
  end.

(** [cv2.cvtColor] on a frame that may be [None] *)
Definition cvtColor (frame : option ndarray) (code : ColorConversion) : M ndarray :=
  match frame with
  | None => raise cv2_error
  | Some a => lift (cv2_cvtColor a code)
  end.

(** ** [decode_barcodes_over_feed] *)

Definition WHITE : Color := (225, 225, 225).
Definition RED : Color := (0, 0, 255).

(** The body of [for i, barcode in enumerate(barcodes)], from index [i] on;
    [image_np] is the array the boxes are drawn into. *)
Fixpoint feed_loop (i : Z) (barcodes : list Decoded) (image_np : ndarray)
  : M ndarray :=
  match barcodes with
  | [] => ret image_np
  | barcode :: rest =>
      barcode_data <- lift (utf8_decode (data barcode)) ;;
      let '(x, y, w, h) := rect barcode in
      seen <- gets seen_barcodes ;;
      if decide (barcode_data ∈ seen) then
        let image_np := cv2_rectangle image_np (x, y) (x + w, y + h) WHITE 2 in
        let image_np :=
          cv2_putText image_np barcode_data (x, y - 10)
                      FONT_HERSHEY_SIMPLEX 1 WHITE 2 in
        feed_loop (i + 1) rest image_np
      else
        seen_barcodes_add barcode_data ;;;
        webbrowser_open barcode_data ;;;
        let image_np := cv2_rectangle image_np (x, y) (x + w, y + h) WHITE 2 in
        let barcode_type := type barcode in
        let text := barcode_data ++ " (" ++ barcode_type ++ ")" in
        let image_np :=
          cv2_putText image_np text (x, y - 10)
                      FONT_HERSHEY_SIMPLEX 1 WHITE 2 in
        tree_insert (TextInt i) (i + 1, barcode_data) ;;;
        feed_loop (i + 1) rest image_np
  end.

Definition decode_barcodes_over_feed (image : Image) : M Image :=
  let image_np := np_array image in
  barcodes <- pyzbar_decode image_np ;;
  image_np <- feed_loop 0 barcodes image_np ;;
  out <- cvtColor (Some image_np) COLOR_BGR2RGB ;;
  ret (fromarray out).

(** ** [cam_feed] and its timer callback [update_frame] *)

Definition update_frame : M unit :=
  r <- cap_read ;;
  let '(ret_, frame) := r in
  let frame := cv2_flip frame 1 in
  (if ret_ : bool then
     rgb <- cvtColor frame COLOR_BGR2RGB ;;
     let img := fromarray rgb in
     img <- decode_barcodes_over_feed img ;;
     label_configure img
   else ret tt) ;;;
  label_after 10.

Definition cam_feed : M unit :=
  c <- gets cap ;;
  (match c with
   | Some c => modify (set_cap (Some (release c)))
   | None => ret tt
   end) ;;;
  src <- gets camera_source ;;
  c <- cv2_VideoCapture src ;;
  modify (set_cap (Some c)) ;;;
  cap_set 3 450 ;;;
  cap_set 4 450 ;;;
  cap_set 5 120 ;;;
  cap_set CAP_PROP_FOURCC (VideoWriter_fourcc "M" "J" "P" "G") ;;;
  update_frame.

(** ** [take_picture] *)

Definition take_picture : M unit :=
  c <- gets cap ;;
  if match c with None => true | Some c => negb (isOpened c) end then
    pymsgbox_alert "Please start the video feed first." "Warning"
  else
    r <- cap_read ;;
    let '(ret_, frame) := r in
    let frame := cv2_flip frame 1 in
    if ret_ : bool then
      cv2_imwrite "captured_image.jpg" frame ;;;
      print "Image captured and saved as 'captured_image.jpg'"
    else
      pymsgbox_alert "Failed to capture image." "Error".

(** ** [detect_code] *)

(** The body of [for i, barcode in enumerate(decoded_image)]. *)
Fixpoint scan_loop (i : Z) (decoded_image : list Decoded) (img_np : ndarray)
  : M ndarray :=
  match decoded_image with
  | [] => ret img_np
  | barcode :: rest =>
      let '(x, y, w, h) := rect barcode in
      let img_np := cv2_rectangle img_np (x, y) (x + w, y + h) RED 4 in
      data <- lift (utf8_decode (data barcode)) ;;
      tree_insert (TextInt i) (i + 1, data) ;;;
      scan_loop (i + 1) rest img_np
  end.

(** The [try] block: open the file and refuse an empty array. *)
Definition load_image (image : str) : M Image :=
  img <- PIL_Image_open image ;;
  let img_np := np_array img in
  if decide (np_size img_np = 0)
  then raise (ValueError "The image is empty or corrupted.")
  else ret img.

Definition NO_BARCODES : str := "No barcodes detected".

Definition detect_code (image : str) : M unit :=
  c <- gets cap ;;
  (match c with
   | Some c => modify (set_cap (Some (release c)))
   | None => ret tt
   end) ;;;
  modify (set_tree [] []) ;;;
  r <- attempt (load_image image) ;;
  match r with
  | inl e =>
      if is_FileNotFound_or_ValueError e
      then pymsgbox_alert ("Error: " ++ str_of_exn e) ""
      else raise e
  | inr img =>
      let img_np := np_array img in
      gray <- cvtColor (Some img_np) COLOR_BGR2GRAY ;;
      decoded_image <- pyzbar_decode gray ;;
      (if decide (length decoded_image = 0%nat)
       then tree_insert (TextStr "n/a") (1, NO_BARCODES)
       else ret tt) ;;;
      img_np <- scan_loop 0 decoded_image img_np ;;
      out <- cvtColor (Some img_np) COLOR_BGR2RGB ;;
      label_configure (fromarray out)
  end.

(** ** [select_link] *)

(** [response] is what the user answers if the confirmation is shown. *)
Definition select_link (response : str) : M unit :=
  sel <- gets selection ;;
  match sel with
  | [] => raise IndexError
  | selected_item :: _ =>
      t <- gets tree ;;
      match t !! selected_item with
      | None => raise TclError
      | Some values =>
          let link := row_data values in
          if startswith link "https:" then webbrowser_open link
          else
            response <- pymsgbox_confirm
              "The item selected is not a link. Do you still want to open it?"
              "Confirmation" response ;;
            if decide (response = "OK") then webbrowser_open link
            else print "User chose to cancel"
      end
  end.

(** ** The event loop *)

Inductive Event :=
| StartFeed                         (* button "Start feed" *)
| Tick                              (* a pending [update_frame] fires *)
| TakePicture                       (* button "Take a Picture" *)
| DetectCode                        (* button "Detect Code" *)
| ChooseCamera (v : Z)              (* a radio button *)
| SelectRow (k : nat) (response : str).   (* a click on the k-th row *)

(** Tk reports an exception of a callback and goes on; the world is kept
    as the callback left it. *)
Definition handle (ev : Event) (w : World) : World :=
  match ev with
  | StartFeed => snd (cam_feed w)
  | Tick =>
      match timers w with
      | [] => w
      | _ :: pending => snd (update_frame (set_timers pending w))
      end
  | TakePicture => snd (take_picture w)
  | DetectCode => snd (detect_code "captured_image.jpg" w)
  | ChooseCamera v => set_camera_source v w
  | SelectRow k response =>
      if decide (k < length (tree w))%nat
      then snd (select_link response (set_tree (tree w) [k] w))
      else w
  end.

Definition run (evs : list Event) (w : World) : World :=
  fold_left (fun w ev => handle ev w) evs w.

(** The session as the script starts it, in a given environment. *)
Definition session_start (fs : gmap string File)
    (devs : Z -> option (list (option ndarray))) : World :=
  mkWorld None ∅ 0 [] [] None [] [] [] [] [] [] fs devs.

(** Frames handed one after the other to the per-frame operation. *)
Definition process_frames (imgs : list Image) (w : World) : World :=
  fold_left (fun w img => snd (decode_barcodes_over_feed img w)) imgs w.

End Program.

Arguments M {_} _.
Arguments World {_}.
Arguments Image {_}.

(** ** A rig: the libraries on explicit pixel arrays

    Arrays are height x width x channels lists of 8-bit values.  The
    rasterisers only record their strokes, and the detector reports the
    symbols that a test placed in the scene. *)
Module Rig.

Inductive Stroke :=
| Box (pt1 pt2 : Point) (color : Color) (thickness : Z)
| Text (text : str) (org : Point) (font : Font) (scale : Z) (color : Color)
       (thickness : Z).

Record array := mkArray {
  pixels : list (list (list Z));
  strokes : list Stroke;
  scene : list Decoded
}.

Definition size (a : array) : Z :=
  Z.of_nat (length (concat (concat (pixels a)))).

Definition width (a : array) : Z :=
  match pixels a with
  | row :: _ => Z.of_nat (length row)
  | [] => 0
  end.

Definition mirror_rect (W : Z) (d : Decoded) : Decoded :=
  let '(x, y, w, h) := rect d in
  mkDecoded (data d) (type d) (W - x - w, y, w, h).

(** [flipCode > 0] mirrors every row, [0] turns the rows over, [< 0] both. *)
Definition flip (frame : option array) (flipCode : Z) : option array :=
  match frame with
  | None => None
  | Some a =>
      let px := pixels a in
      let px := if (flipCode <=? 0)%Z then rev px else px in
      let px := if (flipCode =? 0)%Z then px else map (@rev _) px in
      Some (mkArray px (strokes a)
              (if (flipCode =? 0)%Z then scene a
               else map (mirror_rect (width a)) (scene a)))
  end.

(** B, G, R (and alpha) to R, G, B. *)
Definition bgr2rgb (p : list Z) : option (list Z) :=
  match p with
  | [c0; c1; c2] | [c0; c1; c2; _] => Some [c2; c1; c0]
  | _ => None
  end.

Definition luma (bl g r : Z) : Z :=
  Z.shiftr (bl * 1868 + g * 9617 + r * 4899 + 8192) 14.

Definition bgr2gray (p : list Z) : option (list Z) :=
  match p with
  | [c0; c1; c2] | [c0; c1; c2; _] => Some [luma c0 c1 c2]
  | _ => None
  end.

Definition recolor (f : Color -> Color) (s : Stroke) : Stroke :=
  match s with
  | Box p q c t => Box p q (f c) t
  | Text s o fnt k c t => Text s o fnt k (f c) t
  end.

Definition cvt_pixels (f : list Z -> option (list Z)) (px : list (list (list Z)))
  : option (list (list (list Z))) :=
  mapM (mapM f) px.

Definition cvtColor (a : array) (code : ColorConversion) : Exn + array :=
  if decide (size a = 0) then inl cv2_error
  else
    let '(f, g) :=
      match code with
      | COLOR_BGR2RGB => (bgr2rgb, fun c : Color => let '(x, y, z) := c in (z, y, x))
      | COLOR_BGR2GRAY =>
          (bgr2gray, fun c : Color => let '(x, y, z) := c in
                                      (luma x y z, luma x y z, luma x y z))
      end in
    match cvt_pixels f (pixels a) with
    | Some px => inr (mkArray px (map (recolor g) (strokes a)) (scene a))
    | None => inl cv2_error
    end.

Definition rectangle (a : array) (pt1 pt2 : Point) (c : Color) (t : Z) : array :=
  mkArray (pixels a) (strokes a ++ [Box pt1 pt2 c t]) (scene a).

Definition putText (a : array) (s : str) (org : Point) (fnt : Font) (k : Z)
    (c : Color) (t : Z) : array :=
  mkArray (pixels a) (strokes a ++ [Text s org fnt k c t]) (scene a).

#[global] Instance vision : Vision := {|
  ndarray := array;
  np_size := size;
  cv2_flip := flip;
  cv2_cvtColor := cvtColor;
  cv2_rectangle := rectangle;
  cv2_putText := putText;
  jpeg := fun a => a;
  decode := scene
|}.

(** A session with no files and no cameras. *)
Definition bare : World := session_start ∅ (fun _ => None).

(** A one-pixel picture showing the given symbols. *)
Definition shot (px : list Z) (codes : list Decoded) : array :=
  mkArray [[px]] [] codes.

Definition qr (payload : bytes) : Decoded :=
  mkDecoded payload "QRCODE" (0, 0, 1, 1).

(** A live frame, as [update_frame] hands it on. *)
Definition frame (codes : list Decoded) : Image :=
  fromarray (shot [255; 0; 0] codes).

Definition link : str := "https://example.com".
Definition ftp : str := "ftp://host/res".

(** The camera is open and its next grab fails. *)
Definition stalled : World :=
  set_cap (Some (mkCap true [None])) bare.

(** One frame with [link] in view has been processed. *)
Definition linked : World :=
  snd (decode_barcodes_over_feed (frame [qr (bytes_lit link)]) bare).

(** [w] with a picture saved where [detect_code] looks for it. *)
Definition saved (a : array) (w : World) : World :=
  set_files (<[ "captured_image.jpg" := Picture a ]> (files w)) w.

(** The rows [rows] are shown and the [k]-th is selected. *)
Definition picked (rows : list Row) (k : nat) : World :=
  set_tree rows [k] bare.

(** A session whose built-in camera will deliver the frames [fs]. *)
Definition filming (fs : list (option array)) : World :=
  session_start ∅ (fun index => if (index =? 0)%Z then Some fs else None).

(** An open capture that will deliver the frames [fs], and a session
    that holds it. *)
Definition camera (fs : list (option array)) : VideoCapture := mkCap true fs.
Definition rolling (fs : list (option array)) : World :=
  set_cap (Some (camera fs)) bare.

(** A row from the live feed is shown and selected, with a frame on the
    label; nothing has been saved. *)
Definition shown : World :=
  set_cam_label (Some (frame [])) (picked [mkRow (TextInt 0) 1 link] 0).

End Rig.

(** * The vocabulary of the properties *)

Local Open Scope list_scope.

Section Vocabulary.
Context `{Vision}.

Notation "x <- m ;; k" := (bind m (fun x => k))
  (at level 100, m at next level, right associativity).
Notation "m ;;; k" := (bind m (fun _ => k))
  (at level 100, right associativity).

(** [m] relates the world it starts in to the one it leaves, whether it
    returns or raises. *)
Definition keeps (R : relation World) {A} (m : M A) : Prop :=
  forall w, R w (snd (m w)).

(** The dedup set only grows. *)
Definition grows : relation World :=
  fun w w' => seen_barcodes w ⊆ seen_barcodes w'.

(** Neither the dedup set nor the browser is touched. *)
Definition untouched : relation World :=
  fun w w' => seen_barcodes w' = seen_barcodes w /\ browser w' = browser w.

(** What the automatic dispatch may do between two worlds: open payloads
    that were not in the dedup set, each once, and put them into it. *)
Definition dispatches_new : relation World :=
  fun w w' =>
    seen_barcodes w ⊆ seen_barcodes w' /\
    exists new : list str,
      browser w' = browser w ++ new /\
      NoDup new /\
      forall p, p ∈ new -> (p ∉ seen_barcodes w) /\ (p ∈ seen_barcodes w').

(** The world after a new payload [p] met at index [i] has been recorded. *)
Definition record_new (i : Z) (p : str) (w : World) : World :=
  set_tree (tree w ++ [mkRow (TextInt i) (i + 1) p]) (selection w)
    (set_browser (browser w ++ [p])
       (set_seen (seen_barcodes w ∪ {[ p ]}) w)).

(** The drawing of one pass of the live loop, for a payload already seen
    and for a new one. *)
Definition draw_seen (a : ndarray) (barcode : Decoded) (p : str) : ndarray :=
  let '(x, y, w, h) := rect barcode in
  cv2_putText (cv2_rectangle a (x, y) (x + w, y + h) WHITE 2) p (x, y - 10)
    FONT_HERSHEY_SIMPLEX 1 WHITE 2.
Definition draw_new (a : ndarray) (barcode : Decoded) (p : str) : ndarray :=
  let '(x, y, w, h) := rect barcode in
  cv2_putText (cv2_rectangle a (x, y) (x + w, y + h) WHITE 2)
    (p ++ " (" ++ type barcode ++ ")")%string (x, y - 10)
    FONT_HERSHEY_SIMPLEX 1 WHITE 2.

(** All that a pass over one frame leaves in the world: the rows it
    appends, their payloads opened and put into the dedup set. *)
Definition feed_effect (rows : list Row) (w : World) : World :=
  set_seen (seen_barcodes w ∪ list_to_set (row_data <$> rows))
    (set_browser (browser w ++ (row_data <$> rows))
       (set_tree (tree w ++ rows) (selection w) w)).

(** The detector has been run once more, on [a]. *)
Definition detector_ran (a : ndarray) (w : World) : World :=
  set_detector_runs (detector_runs w ++ [a]) w.

(** The rows of a still scan whose payloads are [payloads], numbered from
    index [i]. *)
Fixpoint scan_rows (i : Z) (payloads : list str) : list Row :=
  match payloads with
  | [] => []
  | p :: rest => mkRow (TextInt i) (i + 1) p :: scan_rows (i + 1) rest
  end.

(** [payloads] are the texts of the symbols [codes], in order. *)
Definition texts_of (codes : list Decoded) (payloads : list str) : Prop :=
  Forall2 (fun c p => utf8_decode (data c) = inr p) codes payloads.

(** The world once [detect_code] has released the camera and emptied the
    Treeview. *)
Definition scan_begun (w : World) : World :=
  set_tree [] []
    (match cap w with
     | Some c => set_cap (Some (release c)) w
     | None => w
     end).

(** What [detect_code] does with a picture once it is loaded. *)
Definition scan_picture (img : Image) : M unit :=
  let img_np := np_array img in
  gray <- cvtColor (Some img_np) COLOR_BGR2GRAY ;;
  decoded_image <- pyzbar_decode gray ;;
  (if decide (length decoded_image = 0%nat)
   then tree_insert (TextStr "n/a") (1, NO_BARCODES)
   else ret tt) ;;;
  img_np <- scan_loop 0 decoded_image img_np ;;
  out <- cvtColor (Some img_np) COLOR_BGR2RGB ;;
  label_configure (fromarray out).

(** The boxes of a still scan, drawn in turn. *)
Definition draw_boxes (codes : list Decoded) (img_np : ndarray) : ndarray :=
  fold_left
    (fun a c => let '(x, y, w, h) := rect c in
                cv2_rectangle a (x, y) (x + w, y + h) RED 4)
    codes img_np.

(** The row that stands for an empty scan. *)
Definition sentinel : Row := mkRow (TextStr "n/a") 1 NO_BARCODES.

(** The alert of a failed load. *)
Definition load_alert (e : Exn) : str * str :=
  (("Error: " ++ str_of_exn e)%string, ""%string).

(** Events other than a click on a row: nothing the user opens by hand. *)
Definition automatic (ev : Event) : bool :=
  match ev with
  | SelectRow _ _ => false
  | _ => true
  end.

(** The part [f] of the world is as it was. *)
Definition same_on {A} (f : World -> A) : relation World :=
  fun w w' => f w' = f w.

(** What a tick does with its frame, between the read and the
    rescheduling. *)
Definition tick_body (ret_ : bool) (frame : option ndarray) : M unit :=
  if ret_ then
    rgb <- cvtColor frame COLOR_BGR2RGB ;;
    let img := fromarray rgb in
    img <- decode_barcodes_over_feed img ;;
    label_configure img
  else ret tt.

(** There is no capture, or it has been released. *)
Definition camera_off (w : World) : Prop :=
  match cap w with
  | None => True
  | Some c => isOpened c = false
  end.

(** The payload of the symbol is text. *)
Definition decodable (c : Decoded) : Prop :=
  exists p, utf8_decode (data c) = inr p.

(** Rows, browser and dedup set tell the same story. *)
Definition mirrors (w : World) : Prop :=
  browser w = row_data <$> tree w /\
  seen_barcodes w = list_to_set (browser w).

(** The warning of [take_picture] without a feed. *)
Definition feed_warning : str * str :=
  ("Please start the video feed first."%string, "Warning"%string).

End Vocabulary.

(** * Properties *)

(** ** Relations kept by every statement of a handler *)

Section Keeps.
Context `{Vision}.
Variable R : relation World.
Context `{!PreOrder R}.

Lemma keeps_ret {A} (a : A) : keeps R (ret a).
Proof. intros w. reflexivity. Qed.

Lemma keeps_raise {A} (e : Exn) : keeps R (raise (A:=A) e).
Proof. intros w. reflexivity. Qed.

Lemma keeps_lift {A} (r : Exn + A) : keeps R (lift r).
Proof. intros w. reflexivity. Qed.

Lemma keeps_gets {A} (f : World -> A) : keeps R (gets f).
Proof. intros w. reflexivity. Qed.

Lemma keeps_modify (f : World -> World) :
  (forall w, R w (f w)) -> keeps R (modify f).
Proof. intros Hf w. apply Hf. Qed.

Lemma keeps_bind {A B} (m : M A) (k : A -> M B) :
  keeps R m -> (forall a, keeps R (k a)) -> keeps R (bind m k).
Proof.
  intros Hm Hk w. unfold bind. specialize (Hm w).
  destruct (m w) as [[e | a] w1]; simpl in *; [exact Hm |].
  etransitivity; [exact Hm | apply Hk].
Qed.

Lemma keeps_attempt {A} (m : M A) : keeps R m -> keeps R (attempt m).
Proof.
  intros Hm w. unfold attempt. specialize (Hm w).
  destruct (m w) as [r w1]. exact Hm.
Qed.

End Keeps.

Ltac keeps_step :=
  lazymatch goal with
  | |- keeps _ (bind _ _) => apply keeps_bind; [ exact _ | | intros ? ]
  | |- keeps _ (ret _) => apply keeps_ret; exact _
  | |- keeps _ (raise _) => apply keeps_raise; exact _
  | |- keeps _ (lift _) => apply keeps_lift; exact _
  | |- keeps _ (gets _) => apply keeps_gets; exact _
  | |- keeps _ (attempt _) => apply keeps_attempt
  | |- keeps _ (modify _) => apply keeps_modify; intros ?
  | |- keeps _ (match ?x with _ => _ end) => destruct x
  end.

(** ** The relations are preorders *)

Section Relations.
Context `{Vision}.

#[export] Instance grows_preorder : PreOrder grows.
Proof.
  split.
  - intros w p Hp. exact Hp.
  - intros w1 w2 w3 H12 H23 p Hp. apply H23, H12, Hp.
Qed.

#[export] Instance untouched_preorder : PreOrder untouched.
Proof.
  split.
  - intros w. split; reflexivity.
  - intros w1 w2 w3 [S12 B12] [S23 B23]. split; congruence.
Qed.

#[export] Instance dispatches_new_preorder : PreOrder dispatches_new.
Proof.
  split.
  - intros w. split; [intros p Hp; exact Hp |]. exists []. rewrite app_nil_r.
    split; [done |]. split; [constructor |]. intros p Hp. inversion Hp.
  - intros w1 w2 w3 (S12 & n12 & B12 & N12 & F12) (S23 & n23 & B23 & N23 & F23).
    split; [intros p Hp; apply S23, S12, Hp |]. exists (n12 ++ n23).
    split; [by rewrite B23, B12, app_assoc |].
    split.
    + apply NoDup_app. split; [done |]. split; [| done].
      intros p Hp Hp'. apply F12 in Hp as [_ Hp]. apply F23 in Hp' as [Hp' _].
      done.
    + intros p [Hp | Hp]%elem_of_app.
      * apply F12 in Hp as [? ?]. split; [done | by apply S23].
      * apply F23 in Hp as [Hn ?]. split; [| done].
        intros Hp'. apply Hn, S12, Hp'.
Qed.

Lemma untouched_grows w w' : untouched w w' -> grows w w'.
Proof. intros [Hs _]. unfold grows. by rewrite Hs. Qed.

Lemma untouched_dispatches_new w w' : untouched w w' -> dispatches_new w w'.
Proof.
  intros [Hs Hb]. split; [by rewrite Hs |]. exists [].
  rewrite Hb, app_nil_r. split; [done |]. split; [constructor |].
  intros p Hp. inversion Hp.
Qed.

Lemma dispatches_new_grows w w' : dispatches_new w w' -> grows w w'.
Proof. intros [? _]. done. Qed.

End Relations.

(** ** The live loop *)

Section Feed.
Context `{Vision}.

(** One pass of the loop of [decode_barcodes_over_feed]. *)
Lemma feed_loop_cons i barcode rest image_np w :
  feed_loop i (barcode :: rest) image_np w =
  match utf8_decode (data barcode) with
  | inl e => (inl e, w)
  | inr p =>
      if decide (p ∈ seen_barcodes w)
      then feed_loop (i + 1) rest (draw_seen image_np barcode p) w
      else feed_loop (i + 1) rest (draw_new image_np barcode p) (record_new i p w)
  end.
Proof.
  simpl. unfold bind at 1, lift at 1. unfold draw_seen, draw_new.
  destruct (utf8_decode (data barcode)) as [e | p]; [reflexivity |].
  destruct (rect barcode) as [[[x y] wd] h].
  unfold bind at 1, gets at 1.
  destruct (decide (p ∈ seen_barcodes w)); reflexivity.
Qed.

Lemma feed_effect_nil w : feed_effect [] w = w.
Proof.
  destruct w. unfold feed_effect, set_seen, set_browser, set_tree. simpl.
  rewrite !app_nil_r. f_equal. set_solver.
Qed.

Lemma feed_effect_cons i p rows w :
  feed_effect rows (record_new i p w) =
  feed_effect (mkRow (TextInt i) (i + 1) p :: rows) w.
Proof.
  unfold feed_effect, record_new, set_seen, set_browser, set_tree. simpl.
  rewrite <- !app_assoc. simpl. f_equal. set_solver.
Qed.

(** The loop leaves the world as [feed_effect] says, for rows that carry
    distinct payloads, none of them in the dedup set before, each the text
    of a symbol of the list and numbered by its place in it. *)
Lemma feed_loop_spec barcodes : forall i image_np w,
  exists rows : list Row,
    snd (feed_loop i barcodes image_np w) = feed_effect rows w /\
    NoDup (row_data <$> rows) /\
    (forall p, p ∈ row_data <$> rows -> p ∉ seen_barcodes w) /\
    (forall row, row ∈ rows ->
       exists (j : nat) barcode,
         barcodes !! j = Some barcode /\
         utf8_decode (data barcode) = inr (row_data row) /\
         row_text row = TextInt (i + Z.of_nat j) /\
         row_id row = i + Z.of_nat j + 1).
Proof.
  induction barcodes as [| barcode rest IH]; intros i image_np w.
  - exists []. simpl. rewrite feed_effect_nil. split; [done |].
    split; [constructor |]. split; intros ? Hp; inversion Hp.
  - rewrite feed_loop_cons.
    destruct (utf8_decode (data barcode)) as [e | p] eqn:Hdec.
    { exists []. simpl. rewrite feed_effect_nil. split; [done |].
      split; [constructor |]. split; intros ? Hp; inversion Hp. }
    destruct (decide (p ∈ seen_barcodes w)) as [Hin | Hnew].
    + destruct (IH (i + 1) (draw_seen image_np barcode p) w)
        as (rows & E & ND & Fresh & Pos).
      exists rows. split; [exact E |]. split; [exact ND |]. split; [exact Fresh |].
      intros row Hrow. destruct (Pos row Hrow) as (j & b' & L & D & T & I).
      exists (S j), b'. split; [exact L |]. split; [exact D |].
      split; [rewrite T; f_equal; lia | lia].
    + destruct (IH (i + 1) (draw_new image_np barcode p) (record_new i p w))
        as (rows & E & ND & Fresh & Pos).
      exists (mkRow (TextInt i) (i + 1) p :: rows).
      split; [by rewrite E, feed_effect_cons |].
      assert (Hp : p ∉ row_data <$> rows).
      { intros Hp. apply Fresh in Hp. apply Hp. simpl. set_solver. }
      split; [simpl; constructor; done |].
      split.
      { intros q Hq. simpl in Hq. apply elem_of_cons in Hq as [-> | Hq]; [done |].
        apply Fresh in Hq. simpl in Hq. set_solver. }
      intros row Hrow. apply elem_of_cons in Hrow as [-> | Hrow].
      * exists 0%nat, barcode. simpl. split; [done |]. split; [done |].
        split; [f_equal; lia | lia].
      * destruct (Pos row Hrow) as (j & b' & L & D & T & I).
        exists (S j), b'. split; [exact L |]. split; [exact D |].
        split; [rewrite T; f_equal; lia | lia].
Qed.

(** [decode_barcodes_over_feed] runs the detector once and then the loop;
    the conversion of the return statement leaves the world alone. *)
Lemma decode_barcodes_over_feed_world image w :
  snd (decode_barcodes_over_feed image w) =
  snd (feed_loop 0 (decode (np_array image)) (np_array image)
         (detector_ran (np_array image) w)).
Proof.
  unfold decode_barcodes_over_feed, pyzbar_decode.
  unfold bind at 1. unfold bind at 1. unfold modify at 1. unfold ret at 1.
  fold (detector_ran (np_array image) w).
  unfold bind at 1.
  destruct (feed_loop 0 _ _ _) as [[e | a] w1]; [reflexivity |].
  unfold bind, cvtColor, lift.
  destruct (cv2_cvtColor a COLOR_BGR2RGB); reflexivity.
Qed.

Lemma decode_barcodes_over_feed_spec image w :
  exists rows : list Row,
    snd (decode_barcodes_over_feed image w) =
      feed_effect rows (detector_ran (np_array image) w) /\
    NoDup (row_data <$> rows) /\
    (forall p, p ∈ row_data <$> rows -> p ∉ seen_barcodes w) /\
    (forall row, row ∈ rows ->
       exists (j : nat) barcode,
         decode (np_array image) !! j = Some barcode /\
         utf8_decode (data barcode) = inr (row_data row) /\
         row_text row = TextInt (Z.of_nat j) /\
         row_id row = Z.of_nat j + 1).
Proof.
  rewrite decode_barcodes_over_feed_world.
  destruct (feed_loop_spec (decode (np_array image)) 0 (np_array image)
              (detector_ran (np_array image) w))
    as (rows & E & ND & Fresh & Pos).
  exists rows. split; [exact E |]. split; [exact ND |]. split; [exact Fresh |].
  intros row Hrow. destruct (Pos row Hrow) as (j & c & L & D & T & I).
  exists j, c. rewrite T, I. done.
Qed.

Lemma feed_effect_dispatches_new rows w :
  NoDup (row_data <$> rows) ->
  (forall p, p ∈ row_data <$> rows -> p ∉ seen_barcodes w) ->
  dispatches_new w (feed_effect rows w).
Proof.
  intros ND Fresh. split; [simpl; set_solver |].
  exists (row_data <$> rows). split; [reflexivity |]. split; [exact ND |].
  intros p Hp. split; [by apply Fresh |]. simpl. set_solver.
Qed.

Lemma decode_barcodes_over_feed_dispatches_new image :
  keeps dispatches_new (decode_barcodes_over_feed image).
Proof.
  intros w.
  destruct (decode_barcodes_over_feed_spec image w) as (rows & E & ND & Fresh & _).
  rewrite E. transitivity (detector_ran (np_array image) w).
  - apply untouched_dispatches_new. split; reflexivity.
  - apply feed_effect_dispatches_new; assumption.
Qed.

End Feed.

(** ** The rows of a frame *)

Section Rows.
Context `{Vision}.

Lemma feed_loop_tree barcodes i image_np w :
  exists rows, tree (snd (feed_loop i barcodes image_np w)) = tree w ++ rows.
Proof.
  destruct (feed_loop_spec barcodes i image_np w) as (rows & E & _).
  exists rows. by rewrite E.
Qed.

(** A symbol whose payload is new when the loop reaches it gets its row,
    numbered by its place in the list. *)
Lemma feed_loop_emits barcodes : forall i image_np w (j : nat) barcode p rows,
  barcodes !! j = Some barcode ->
  utf8_decode (data barcode) = inr p ->
  p ∉ seen_barcodes w ->
  (forall (k : nat) c, (k < j)%nat -> barcodes !! k = Some c ->
     exists q, utf8_decode (data c) = inr q /\ q <> p) ->
  tree (snd (feed_loop i barcodes image_np w)) = tree w ++ rows ->
  mkRow (TextInt (i + Z.of_nat j)) (i + Z.of_nat j + 1) p ∈ rows.
Proof.
  induction barcodes as [| c rest IH];
    intros i image_np w j barcode p rows Hj Hdec Hnew Hbefore Htree;
    [by destruct j |].
  rewrite feed_loop_cons in Htree.
  destruct j as [| j]; simpl in Hj.
  - injection Hj as ->. rewrite Hdec in Htree.
    destruct (decide (p ∈ seen_barcodes w)) as [? | _]; [contradiction |].
    destruct (feed_loop_tree rest (i + 1) (draw_new image_np barcode p)
                (record_new i p w)) as (rows' & E).
    rewrite E in Htree. simpl in Htree. rewrite <- app_assoc in Htree.
    apply app_inv_head in Htree. subst rows. simpl.
    replace (i + Z.of_nat 0) with i by lia. apply list_elem_of_here.
  - destruct (Hbefore 0%nat c) as (q & Hq & Hqp); [lia | reflexivity |].
    rewrite Hq in Htree.
    assert (Hbefore' : forall (k : nat) c', (k < j)%nat -> rest !! k = Some c' ->
              exists q', utf8_decode (data c') = inr q' /\ q' <> p).
    { intros k c' Hk Hc'. apply (Hbefore (S k) c'); [lia | exact Hc']. }
    replace (i + Z.of_nat (S j)) with (i + 1 + Z.of_nat j) by lia.
    destruct (decide (q ∈ seen_barcodes w)) as [Hin | Hout].
    + eapply IH; eauto.
    + destruct (feed_loop_tree rest (i + 1) (draw_new image_np c q)
                  (record_new i q w)) as (rows' & E).
      assert (Hrows : rows = mkRow (TextInt i) (i + 1) q :: rows').
      { rewrite E in Htree. simpl in Htree. rewrite <- app_assoc in Htree.
        by apply app_inv_head in Htree. }
      subst rows. apply list_elem_of_further.
      eapply (IH (i + 1) _ (record_new i q w)); eauto.
      simpl. set_solver.
Qed.

Lemma feed_nothing_detected image w :
  decode (np_array image) = [] ->
  decode_barcodes_over_feed image w =
    (match cv2_cvtColor (np_array image) COLOR_BGR2RGB with
     | inl e => inl e
     | inr out => inr (fromarray out)
     end,
     detector_ran (np_array image) w).
Proof.
  intros Hnone. unfold decode_barcodes_over_feed, pyzbar_decode.
  unfold bind at 1. unfold bind at 1. unfold modify at 1. unfold ret at 1.
  fold (detector_ran (np_array image) w). rewrite Hnone.
  unfold bind at 1. cbn [feed_loop]. unfold ret at 1.
  unfold bind, cvtColor, lift, ret.
  destruct (cv2_cvtColor (np_array image) COLOR_BGR2RGB); reflexivity.
Qed.
End Rows.

(** ** The handlers, for any relation that the quiet steps and the live
    loop keep *)

Section Handlers.
Context `{Vision}.
Variable R : relation World.
Context `{!PreOrder R}.
Hypothesis R_untouched : forall w w', untouched w w' -> R w w'.

Ltac quiet := solve [ apply R_untouched; split; reflexivity ].
Ltac keeps_all :=
  repeat first
    [ quiet
    | solve [ auto ]
    | keeps_step
    | progress unfold pymsgbox_alert, print, pyzbar_decode, tree_insert,
        label_after, label_configure, cvtColor, cv2_imwrite,
        cv2_VideoCapture, PIL_Image_open, load_image, cap_set ].

Lemma keeps_cap_read : keeps R cap_read.
Proof. unfold cap_read. keeps_all. Qed.

Lemma keeps_scan_loop decoded_image : forall i img_np,
  keeps R (scan_loop i decoded_image img_np).
Proof.
  induction decoded_image as [| barcode rest IH]; intros i img_np; simpl.
  - keeps_all.
  - destruct (rect barcode) as [[[x y] wd] h].
    keeps_step; [keeps_all |]. keeps_step; [keeps_all |]. apply IH.
Qed.

Lemma keeps_take_picture : keeps R take_picture.
Proof.
  pose proof keeps_cap_read. unfold take_picture. keeps_all.
Qed.

Lemma keeps_detect_code image : keeps R (detect_code image).
Proof.
  pose proof keeps_scan_loop. unfold detect_code. keeps_all.
Qed.

Hypothesis R_feed : forall image, keeps R (decode_barcodes_over_feed image).

Lemma keeps_update_frame : keeps R update_frame.
Proof.
  pose proof keeps_cap_read. unfold update_frame. keeps_all.
Qed.

Lemma keeps_cam_feed : keeps R cam_feed.
Proof.
  pose proof keeps_update_frame. unfold cam_feed. keeps_all.
Qed.

(** Every event but the click on a row, which opens by the user's hand. *)
Lemma handle_automatic ev w : automatic ev = true -> R w (handle ev w).
Proof.
  destruct ev; simpl; intros Hev; try discriminate.
  - apply keeps_cam_feed.
  - destruct (timers w) as [| t pending]; [reflexivity |].
    transitivity (set_timers pending w); [quiet | apply keeps_update_frame].
  - apply keeps_take_picture.
  - apply keeps_detect_code.
  - quiet.
Qed.

End Handlers.

(** ** Sessions *)

Section Sessions.
Context `{Vision}.

Lemma decode_barcodes_over_feed_grows image :
  keeps grows (decode_barcodes_over_feed image).
Proof.
  intros w. apply dispatches_new_grows, decode_barcodes_over_feed_dispatches_new.
Qed.

(** The click on a row opens the browser, but stays away from the set. *)
Lemma select_link_grows response : keeps grows (select_link response).
Proof.
  unfold select_link, webbrowser_open, pymsgbox_confirm, print.
  repeat first [ solve [ unfold grows; reflexivity ] | keeps_step ].
Qed.

Lemma handle_grows ev w : grows w (handle ev w).
Proof.
  destruct (automatic ev) eqn:Hev.
  - apply handle_automatic; [exact _ | apply untouched_grows | | exact Hev].
    apply decode_barcodes_over_feed_grows.
  - destruct ev; try discriminate. simpl.
    destruct (decide _); [| reflexivity].
    transitivity (set_tree (tree w) [k] w); [unfold grows; reflexivity |].
    apply select_link_grows.
Qed.

Lemma run_grows evs : forall w, grows w (run evs w).
Proof.
  induction evs as [| ev evs IH]; intros w; simpl; [reflexivity |].
  transitivity (handle ev w); [apply handle_grows | apply IH].
Qed.

Lemma handle_dispatches_new ev w :
  automatic ev = true -> dispatches_new w (handle ev w).
Proof.
  apply handle_automatic; [exact _ | apply untouched_dispatches_new |].
  apply decode_barcodes_over_feed_dispatches_new.
Qed.

Lemma run_dispatches_new evs : forall w,
  forallb automatic evs = true -> dispatches_new w (run evs w).
Proof.
  induction evs as [| ev evs IH]; intros w Hevs; simpl; [reflexivity |].
  simpl in Hevs. apply andb_prop in Hevs as [Hev Hevs].
  transitivity (handle ev w); [by apply handle_dispatches_new | by apply IH].
Qed.

Lemma process_frames_dispatches_new imgs : forall w,
  dispatches_new w (process_frames imgs w).
Proof.
  induction imgs as [| img imgs IH]; intros w; simpl; [reflexivity |].
  etransitivity; [apply decode_barcodes_over_feed_dispatches_new | apply IH].
Qed.

(** Whatever the automatic dispatch has opened since the session began
    is in the dedup set, and was opened once. *)
Lemma dispatches_new_from_start w w' :
  browser w = [] -> dispatches_new w w' ->
  NoDup (browser w') /\ forall p, p ∈ browser w' -> p ∈ seen_barcodes w'.
Proof.
  intros Hb (_ & new & Hnew & ND & F). rewrite Hb in Hnew. simpl in Hnew.
  rewrite Hnew. split; [exact ND |]. intros p Hp. by apply F.
Qed.

End Sessions.

(** ** The still scan *)

Section Scan.
Context `{Vision}.

(** The [try] block reads the world and leaves it as it is. *)
Lemma load_image_world image w : snd (load_image image w) = w.
Proof.
  unfold load_image, PIL_Image_open, bind, gets.
  destruct (files w !! image) as [[a | |] |]; simpl; try reflexivity.
  destruct (decide (np_size a = 0)); reflexivity.
Qed.

(** [detect_code], by the outcome of the [try] block. *)
Lemma detect_code_unfold image w :
  detect_code image w =
  match fst (load_image image (scan_begun w)) with
  | inl e =>
      if is_FileNotFound_or_ValueError e
      then (inr tt, set_alerts (alerts w ++ [load_alert e]) (scan_begun w))
      else (inl e, scan_begun w)
  | inr img => scan_picture img (scan_begun w)
  end.
Proof.
  unfold detect_code.
  unfold bind at 1, gets at 1.
  unfold bind at 1.
  assert (E : forall c : option VideoCapture,
    (match c with
     | Some c => modify (set_cap (Some (release c)))
     | None => ret tt
     end) w
    = (inr tt, match c with
               | Some c => set_cap (Some (release c)) w
               | None => w
               end)).
  { intros [c |]; reflexivity. }
  rewrite E. unfold bind at 1, modify at 1.
  fold (scan_begun w).
  unfold bind at 1, attempt at 1.
  pose proof (load_image_world image (scan_begun w)) as Hw.
  destruct (load_image image (scan_begun w)) as [[e | img] w1];
    simpl in Hw; subst w1; simpl.
  - destruct (is_FileNotFound_or_ValueError e); [| reflexivity].
    unfold pymsgbox_alert, modify, load_alert. simpl.
    destruct (cap w); reflexivity.
  - reflexivity.
Qed.

Lemma load_image_missing image w :
  files w !! image = None ->
  fst (load_image image w) =
    inl (FileNotFoundError
           ("[Errno 2] No such file or directory: '" ++ image ++ "'")%string).
Proof.
  intros Hf. unfold load_image, PIL_Image_open, bind, gets. by rewrite Hf.
Qed.

Lemma load_image_empty image a w :
  files w !! image = Some (Picture a) -> np_size a = 0 ->
  fst (load_image image w) = inl (ValueError "The image is empty or corrupted.").
Proof.
  intros Hf Hsz. unfold load_image, PIL_Image_open, bind, gets. rewrite Hf.
  simpl. destruct (decide (np_size a = 0)); [reflexivity | contradiction].
Qed.

Lemma load_image_picture image a w :
  files w !! image = Some (Picture a) -> np_size a <> 0 ->
  fst (load_image image w) = inr (fromarray a).
Proof.
  intros Hf Hsz. unfold load_image, PIL_Image_open, bind, gets. rewrite Hf.
  simpl. destruct (decide (np_size a = 0)); [contradiction | reflexivity].
Qed.

Lemma files_scan_begun w : files (scan_begun w) = files w.
Proof. unfold scan_begun. destruct (cap w); reflexivity. Qed.

(** One pass of the loop of [detect_code]. *)
Lemma scan_loop_cons i barcode rest img_np w :
  scan_loop i (barcode :: rest) img_np w =
  match utf8_decode (data barcode) with
  | inl e => (inl e, w)
  | inr p =>
      scan_loop (i + 1) rest (draw_boxes [barcode] img_np)
        (set_tree (tree w ++ [mkRow (TextInt i) (i + 1) p]) (selection w) w)
  end.
Proof.
  destruct barcode as [d t [[[x y] wd] h]]. cbn [scan_loop rect data].
  unfold bind at 1, lift at 1.
  destruct (utf8_decode d) as [e | p]; reflexivity.
Qed.

(** With all payloads valid text the loop returns, one row appended for
    each symbol. *)
Lemma scan_loop_texts codes : forall payloads i img_np w,
  texts_of codes payloads ->
  scan_loop i codes img_np w =
    (inr (draw_boxes codes img_np),
     set_tree (tree w ++ scan_rows i payloads) (selection w) w).
Proof.
  induction codes as [| c codes IH]; intros payloads i img_np w Ht;
    inversion Ht as [| ? p ? rest Hc Hrest]; subst.
  - simpl. unfold ret. rewrite app_nil_r. by destruct w.
  - rewrite scan_loop_cons, Hc, (IH rest (i + 1)); [| exact Hrest].
    f_equal. unfold set_tree. simpl. by rewrite <- app_assoc.
Qed.

Lemma length_scan_rows payloads : forall i,
  length (scan_rows i payloads) = length payloads.
Proof.
  induction payloads as [| p rest IH]; intros i; simpl; [reflexivity |].
  by rewrite IH.
Qed.

Lemma scan_rows_lookup payloads : forall i (k : nat),
  scan_rows i payloads !! k =
  (fun p => mkRow (TextInt (i + Z.of_nat k)) (i + Z.of_nat k + 1) p)
    <$> payloads !! k.
Proof.
  induction payloads as [| p rest IH]; intros i k; [by destruct k |].
  destruct k as [| k]; simpl.
  - do 3 f_equal; lia.
  - rewrite IH. destruct (rest !! k); simpl; [| reflexivity].
    do 3 f_equal; lia.
Qed.

(** The tail of the scan, after the loop, does not touch the rows. *)
Lemma scan_picture_tree a gray w :
  cv2_cvtColor a COLOR_BGR2GRAY = inr gray ->
  tree (snd (scan_picture (fromarray a) w)) =
  tree (snd (scan_loop 0 (decode gray) a
               (if decide (length (decode gray) = 0%nat)
                then set_tree (tree w ++ [sentinel]) (selection w)
                       (detector_ran gray w)
                else detector_ran gray w))).
Proof.
  intros Hgray. unfold scan_picture. cbn [np_array].
  unfold bind at 1, cvtColor at 1, lift at 1. rewrite Hgray.
  unfold bind at 1, pyzbar_decode at 1.
  unfold bind at 1, modify at 1, ret at 1. fold (detector_ran gray w).
  unfold bind at 1.
  assert (E : (if decide (length (decode gray) = 0%nat)
               then tree_insert (TextStr "n/a") (1, NO_BARCODES)
               else ret tt) (detector_ran gray w)
              = (inr tt, if decide (length (decode gray) = 0%nat)
                         then set_tree (tree w ++ [sentinel]) (selection w)
                                (detector_ran gray w)
                         else detector_ran gray w)).
  { destruct (decide _); reflexivity. }
  rewrite E. unfold bind at 1.
  destruct (scan_loop 0 _ _ _) as [[e | img] w3]; [reflexivity |].
  unfold bind, cvtColor, lift, label_configure, modify.
  destruct (cv2_cvtColor img COLOR_BGR2RGB); reflexivity.
Qed.

(** The still scan stays away from the dedup set and the browser. *)
Lemma detect_code_untouched image : keeps untouched (detect_code image).
Proof. apply keeps_detect_code; [exact _ | auto]. Qed.

End Scan.

(** * The claims *)

Section Claims.
Context `{Vision}.

(** C1. In a session of live frames every payload is opened at most once:
    after any sequence of frames handed to [decode_barcodes_over_feed]
    from the start of a session, the browser log has no payload twice and
    holds only payloads of the dedup set; and once a payload is in the
    dedup set, processing one more frame neither opens it nor appends a
    row that carries it. *)
Theorem live_dispatch_at_most_once (imgs : list Image)
    (fs : gmap string File) (devs : Z -> option (list (option ndarray))) :
  let w := process_frames imgs (session_start fs devs) in
  NoDup (browser w) /\
  (forall p, p ∈ browser w -> p ∈ seen_barcodes w) /\
  (forall (image : Image) (p : str),
     p ∈ seen_barcodes w ->
     exists (new : list str) (rows : list Row),
       browser (snd (decode_barcodes_over_feed image w)) = browser w ++ new /\
       tree (snd (decode_barcodes_over_feed image w)) = tree w ++ rows /\
       (p ∉ new) /\ (p ∉ row_data <$> rows)).
Proof.
  intros w.
  destruct (dispatches_new_from_start (session_start fs devs) w) as [ND Sub];
    [reflexivity | apply process_frames_dispatches_new |].
  split; [exact ND |]. split; [exact Sub |].
  intros image p Hp.
  destruct (decode_barcodes_over_feed_spec image w) as (rows & E & _ & Fresh & _).
  exists (row_data <$> rows), rows. rewrite E.
  split; [reflexivity |]. split; [reflexivity |].
  assert (Hn : p ∉ row_data <$> rows) by (intros Hin; by apply Fresh in Hin).
  split; exact Hn.
Qed.

(** The same for whole sessions: whatever the buttons and the timer do,
    short of the user opening a row by hand, no payload is opened twice. *)
Theorem session_dispatch_at_most_once (evs : list Event)
    (fs : gmap string File) (devs : Z -> option (list (option ndarray))) :
  forallb automatic evs = true ->
  let w := run evs (session_start fs devs) in
  NoDup (browser w) /\ forall p, p ∈ browser w -> p ∈ seen_barcodes w.
Proof.
  intros Hevs w.
  apply (dispatches_new_from_start (session_start fs devs) w);
    [reflexivity | by apply run_dispatches_new].
Qed.

(** C2. The dedup set only grows: it is a subset of itself after the
    per-frame operation, after any single event and after any sequence of
    events, whatever the handlers return or raise. *)
Theorem dedup_set_monotone :
  (forall (image : Image) (w : World),
     seen_barcodes w ⊆ seen_barcodes (snd (decode_barcodes_over_feed image w))) /\
  (forall (ev : Event) (w : World),
     seen_barcodes w ⊆ seen_barcodes (handle ev w)) /\
  (forall (evs : list Event) (w : World),
     seen_barcodes w ⊆ seen_barcodes (run evs w)).
Proof.
  split; [intros image w; apply decode_barcodes_over_feed_grows |].
  split; [intros ev w; apply handle_grows | intros evs w; apply run_grows].
Qed.

(** C3. A tick whose frame capture fails ([ret] false) returns, having
    only advanced the camera and scheduled the next tick: the detector is
    not run, the dedup set, the rows, the browser, the alerts and the image
    shown are as before. *)
Theorem failed_capture_skips_frame (w : World) (c c' : VideoCapture)
    (frame : option ndarray) :
  cap w = Some c ->
  read c = ((false, frame), c') ->
  update_frame w =
    (inr tt, set_timers (timers w ++ [10]) (set_cap (Some c') w)) /\
  let w' := snd (update_frame w) in
  detector_runs w' = detector_runs w /\
  seen_barcodes w' = seen_barcodes w /\
  alerts w' = alerts w /\
  tree w' = tree w /\
  browser w' = browser w /\
  cam_label w' = cam_label w /\
  timers w' = timers w ++ [10].
Proof.
  intros Hcap Hread.
  assert (E : update_frame w =
    (inr tt, set_timers (timers w ++ [10]) (set_cap (Some c') w))).
  { unfold update_frame, cap_read.
    unfold bind at 1. unfold bind at 1. unfold gets at 1. rewrite Hcap, Hread.
    reflexivity. }
  split; [exact E |]. rewrite E. simpl. repeat split; reflexivity.
Qed.

(** C4, as the code has it.  When there is no file at the path, or the
    picture read from it has an empty pixel array, the scan ends with one
    alert, without running the detector and without a new image on the
    label; the rows shown before are gone, the Treeview having been emptied
    (and the camera released) before the file is opened. *)
Theorem load_error_alerts_on_cleared_rows (image : str) (w : World) :
  (files w !! image = None \/
   exists a, files w !! image = Some (Picture a) /\ np_size a = 0) ->
  exists e : Exn,
    detect_code image w =
      (inr tt, set_alerts (alerts w ++ [load_alert e]) (scan_begun w)) /\
    alerts (snd (detect_code image w)) = alerts w ++ [load_alert e] /\
    detector_runs (snd (detect_code image w)) = detector_runs w /\
    tree (snd (detect_code image w)) = [] /\
    cam_label (snd (detect_code image w)) = cam_label w.
Proof.
  intros Hload. rewrite detect_code_unfold.
  assert (Hcam : cam_label (scan_begun w) = cam_label w)
    by (unfold scan_begun; destruct (cap w); reflexivity).
  assert (Hruns : detector_runs (scan_begun w) = detector_runs w)
    by (unfold scan_begun; destruct (cap w); reflexivity).
  destruct Hload as [Hnone | (a & Hpic & Hsz)].
  - rewrite (load_image_missing image (scan_begun w))
      by (by rewrite files_scan_begun).
    eexists. split; [reflexivity |]. simpl. repeat split; assumption.
  - rewrite (load_image_empty image a (scan_begun w))
      by (by rewrite ?files_scan_begun).
    eexists. split; [reflexivity |]. simpl. repeat split; assumption.
Qed.

(** C7. A still scan of a picture on which the detector finds nothing
    leaves exactly one row, the sentinel [(1, "No barcodes detected")],
    whatever rows were shown before. *)
Theorem empty_scan_leaves_sentinel (image : str) (a gray : ndarray) (w : World) :
  files w !! image = Some (Picture a) ->
  np_size a <> 0 ->
  cv2_cvtColor a COLOR_BGR2GRAY = inr gray ->
  decode gray = [] ->
  tree (snd (detect_code image w)) =
    [mkRow (TextStr "n/a") 1 "No barcodes detected"].
Proof.
  intros Hf Hsz Hgray Hnone. rewrite detect_code_unfold.
  rewrite (load_image_picture image a (scan_begun w))
    by (by rewrite ?files_scan_begun).
  rewrite (scan_picture_tree a gray) by exact Hgray.
  rewrite Hnone. reflexivity.
Qed.

(** C8, as the code has it.  A still scan of a picture on which the
    detector finds n > 0 symbols, all of them carrying valid UTF-8, leaves
    exactly n rows, in the detector's order, numbered 1..n, whatever the
    dedup set holds; the dedup set is not consulted and not changed. *)
Theorem scan_lists_every_code (image : str) (a gray : ndarray)
    (payloads : list str) (w : World) :
  files w !! image = Some (Picture a) ->
  np_size a <> 0 ->
  cv2_cvtColor a COLOR_BGR2GRAY = inr gray ->
  decode gray <> [] ->
  texts_of (decode gray) payloads ->
  tree (snd (detect_code image w)) = scan_rows 0 payloads /\
  length (tree (snd (detect_code image w))) = length (decode gray) /\
  (forall (k : nat) (p : str),
     payloads !! k = Some p ->
     tree (snd (detect_code image w)) !! k =
       Some (mkRow (TextInt (Z.of_nat k)) (Z.of_nat k + 1) p)) /\
  seen_barcodes (snd (detect_code image w)) = seen_barcodes w.
Proof.
  intros Hf Hsz Hgray Hsome Htexts.
  assert (E : tree (snd (detect_code image w)) = scan_rows 0 payloads).
  { rewrite detect_code_unfold.
    rewrite (load_image_picture image a (scan_begun w))
      by (by rewrite ?files_scan_begun).
    rewrite (scan_picture_tree a gray) by exact Hgray.
    destruct (decide (length (decode gray) = 0%nat)) as [Hlen | _].
    { destruct (decode gray); [contradiction | discriminate]. }
    rewrite (scan_loop_texts _ payloads) by exact Htexts.
    unfold scan_begun. destruct (cap w); reflexivity. }
  split; [exact E |]. rewrite E.
  split; [rewrite length_scan_rows; symmetry; eapply Forall2_length, Htexts |].
  split.
  - intros k p Hk. rewrite scan_rows_lookup, Hk. simpl.
    do 2 f_equal; lia.
  - apply (detect_code_untouched image w).
Qed.

(** C9. For the selected row, [select_link] opens the payload at once,
    asking nothing, when it starts with ["https:"]; otherwise it asks for
    confirmation, opens the payload if the answer is ["OK"] and only prints
    a line if it is not. *)
Theorem select_link_dispatch (response : str) (w : World) (k : nat)
    (others : list nat) (row : Row) :
  selection w = k :: others ->
  tree w !! k = Some row ->
  let link := row_data row in
  let asked :=
    set_confirms
      (confirms w ++
         [("The item selected is not a link. Do you still want to open it?",
           "Confirmation")]) w in
  (startswith link "https:" = true ->
   select_link response w = (inr tt, set_browser (browser w ++ [link]) w)) /\
  (startswith link "https:" = false ->
   select_link response w =
     if decide (response = "OK")
     then (inr tt, set_browser (browser w ++ [link]) asked)
     else (inr tt, set_stdout (stdout w ++ ["User chose to cancel"]) asked)).
Proof.
  intros Hsel Hrow link asked. subst link asked.
  assert (E : select_link response w =
    if startswith (row_data row) "https:"
    then webbrowser_open (row_data row) w
    else bind (pymsgbox_confirm
                 "The item selected is not a link. Do you still want to open it?"
                 "Confirmation" response)
           (fun response =>
              if decide (response = "OK") then webbrowser_open (row_data row)
              else print "User chose to cancel") w).
  { unfold select_link. unfold bind at 1, gets at 1. rewrite Hsel.
    unfold bind at 1, gets at 1. rewrite Hrow.
    destruct (startswith (row_data row) "https:"); reflexivity. }
  rewrite E. split; intros Hlink; rewrite Hlink; [reflexivity |].
  unfold bind at 1, pymsgbox_confirm at 1.
  unfold bind at 1, modify at 1, ret at 1.
  destruct (decide (response = "OK")); reflexivity.
Qed.

(** C10. The still scan never opens the browser and never changes the
    dedup set, however it ends and whatever it detects. *)
Theorem still_scan_keeps_dedup_and_browser (image : str) (w : World) :
  seen_barcodes (snd (detect_code image w)) = seen_barcodes w /\
  browser (snd (detect_code image w)) = browser w.
Proof. apply (detect_code_untouched image w). Qed.

(** C6. Every row that a frame appends carries a payload that was not in
    the dedup set, and its ordinal is one more than the index, in this
    frame's detection list, of a symbol with that payload; a symbol whose
    payload is new when the loop reaches it gets the row numbered by its
    own place in the list, symbols already seen before it being counted.
    Nothing of earlier frames enters the number. *)
Theorem row_ordinal_is_place_in_frame (image : Image) (w : World) :
  exists rows : list Row,
    tree (snd (decode_barcodes_over_feed image w)) = tree w ++ rows /\
    (forall row, row ∈ rows ->
       (row_data row ∉ seen_barcodes w) /\
       exists (j : nat) barcode,
         decode (np_array image) !! j = Some barcode /\
         utf8_decode (data barcode) = inr (row_data row) /\
         row_id row = Z.of_nat j + 1) /\
    (forall (j : nat) barcode p,
       decode (np_array image) !! j = Some barcode ->
       utf8_decode (data barcode) = inr p ->
       p ∉ seen_barcodes w ->
       (forall (k : nat) c,
          (k < j)%nat -> decode (np_array image) !! k = Some c ->
          exists q, utf8_decode (data c) = inr q /\ q <> p) ->
       mkRow (TextInt (Z.of_nat j)) (Z.of_nat j + 1) p ∈ rows).
Proof.
  destruct (decode_barcodes_over_feed_spec image w) as (rows & E & _ & Fresh & Pos).
  exists rows. split; [by rewrite E |]. split.
  - intros row Hrow. split.
    + apply Fresh. by apply list_elem_of_fmap_2.
    + destruct (Pos row Hrow) as (j & c & L & D & _ & I). by exists j, c.
  - intros j barcode p Hj Hdec Hnew Hbefore.
    apply (feed_loop_emits (decode (np_array image)) 0 (np_array image)
             (detector_ran (np_array image) w) j barcode p rows);
      try assumption.
    rewrite <- decode_barcodes_over_feed_world, E. reflexivity.
Qed.

End Claims.

(** * The handlers on the rig *)

(** C5, where the code departs from it.  A live frame of one pixel with
    nothing for the detector to find comes back with its first and third
    channel exchanged: the return statement converts "BGR to RGB" an array
    that [update_frame] has already converted. *)
Theorem feed_without_codes_swaps_channels :
  decode (np_array (Rig.frame [])) = [] /\
  Rig.frame [] = fromarray (Rig.shot [255; 0; 0] []) /\
  fst (decode_barcodes_over_feed (Rig.frame []) Rig.bare) =
    inr (fromarray (Rig.shot [0; 0; 255] [])) /\
  fst (decode_barcodes_over_feed (Rig.frame []) Rig.bare) <> inr (Rig.frame []).
Proof.
  split; [reflexivity |]. split; [reflexivity |]. split; [reflexivity |].
  vm_compute. discriminate.
Qed.

(** What does hold of a frame without symbols: nothing is drawn, and the
    world only learns that the detector ran. *)
Lemma feed_without_codes_is_quiet :
  snd (decode_barcodes_over_feed (Rig.frame []) Rig.bare) =
    detector_ran (Rig.shot [255; 0; 0] []) Rig.bare.
Proof. reflexivity. Qed.

(** On the label this shows: the camera delivers one blue pixel (B, G, R =
    255, 0, 0), [update_frame] turns it into RGB (0, 0, 255), and the
    image put on the label holds (255, 0, 0) again, which Tk paints red. *)
Example feed_shows_blue_as_red :
  let w := handle StartFeed (Rig.filming [Some (Rig.shot [255; 0; 0] [])]) in
  cam_label w = Some (fromarray (Rig.shot [255; 0; 0] [])) /\
  detector_runs w = [Rig.shot [0; 0; 255] []].
Proof. split; reflexivity. Qed.

(** C3 at a camera whose next grab fails. *)
Lemma failed_capture_skips_frame_witness :
  cap Rig.stalled = Some (mkCap true [None]) /\
  read (mkCap true [None]) = ((false, None), mkCap true []) /\
  update_frame Rig.stalled =
    (inr tt, set_timers [10] (set_cap (Some (mkCap true [])) Rig.stalled)).
Proof.
  split; [reflexivity |]. split; [reflexivity |].
  apply (@failed_capture_skips_frame Rig.vision Rig.stalled (mkCap true [None])
           (mkCap true []) None); reflexivity.
Defined.

(** C4 fails on the code: with no file to load, the row that was shown is
    gone after the scan. *)
Lemma missing_file_loses_rows :
  files Rig.shown !! "captured_image.jpg" = None /\
  tree Rig.shown = [mkRow (TextInt 0) 1 Rig.link] /\
  tree (snd (detect_code "captured_image.jpg" Rig.shown)) = [] /\
  tree (snd (detect_code "captured_image.jpg" Rig.shown)) <> tree Rig.shown.
Proof.
  split; [reflexivity |]. split; [reflexivity |]. split; [reflexivity |].
  vm_compute. discriminate.
Qed.

(** C4 as amended, at the same input. *)
Lemma load_error_alerts_on_cleared_rows_witness :
  files Rig.shown !! "captured_image.jpg" = None /\
  exists e : Exn,
    detect_code "captured_image.jpg" Rig.shown =
      (inr tt, set_alerts (alerts Rig.shown ++ [load_alert e])
                 (scan_begun Rig.shown)) /\
    alerts (snd (detect_code "captured_image.jpg" Rig.shown)) =
      alerts Rig.shown ++ [load_alert e] /\
    detector_runs (snd (detect_code "captured_image.jpg" Rig.shown)) =
      detector_runs Rig.shown /\
    tree (snd (detect_code "captured_image.jpg" Rig.shown)) = [] /\
    cam_label (snd (detect_code "captured_image.jpg" Rig.shown)) =
      cam_label Rig.shown.
Proof.
  split; [reflexivity |].
  apply (@load_error_alerts_on_cleared_rows Rig.vision "captured_image.jpg" Rig.shown).
  left. reflexivity.
Defined.

(** A file that is no image: the error is not one of the two the handler
    catches, so it leaves [detect_code] and no alert is shown. *)
Lemma junk_file_raises_without_alert :
  let w := set_files {[ "captured_image.jpg" := Junk ]} Rig.shown in
  fst (detect_code "captured_image.jpg" w) =
    inl (OSError "cannot identify image file 'captured_image.jpg'") /\
  alerts (snd (detect_code "captured_image.jpg" w)) = [].
Proof. split; reflexivity. Qed.

(** C7 at a saved picture without symbols, a row being shown before. *)
Lemma empty_scan_leaves_sentinel_witness :
  let a := Rig.shot [10; 20; 30] [] in
  let w := Rig.saved a Rig.shown in
  files w !! "captured_image.jpg" = Some (Picture a) /\
  np_size a <> 0 /\
  cv2_cvtColor a COLOR_BGR2GRAY = inr (Rig.shot [Rig.luma 10 20 30] []) /\
  decode (Rig.shot [Rig.luma 10 20 30] []) = [] /\
  tree (snd (detect_code "captured_image.jpg" w)) =
    [mkRow (TextStr "n/a") 1 "No barcodes detected"].
Proof.
  cbv zeta.
  split; [reflexivity |]. split; [discriminate |]. split; [reflexivity |].
  split; [reflexivity |].
  apply (@empty_scan_leaves_sentinel Rig.vision "captured_image.jpg"
           (Rig.shot [10; 20; 30] []) (Rig.shot [Rig.luma 10 20 30] []));
    [reflexivity | discriminate | reflexivity | reflexivity].
Defined.

(** C8 fails on the code: the detector finds one symbol, its payload is
    not UTF-8, and the scan raises before the row is inserted. *)
Lemma undecodable_payload_gets_no_row :
  let a := Rig.shot [10; 20; 30] [Rig.qr [xff]] in
  let w := Rig.saved a Rig.bare in
  files w !! "captured_image.jpg" = Some (Picture a) /\
  np_size a <> 0 /\
  (exists gray, cv2_cvtColor a COLOR_BGR2GRAY = inr gray /\
                length (decode gray) = 1%nat) /\
  fst (detect_code "captured_image.jpg" w) = inl UnicodeDecodeError /\
  tree (snd (detect_code "captured_image.jpg" w)) = [].
Proof.
  cbv zeta.
  split; [reflexivity |]. split; [discriminate |].
  split; [eexists; split; reflexivity |]. split; reflexivity.
Qed.

(** C8 as amended, at a picture with two symbols, the first of which the
    live feed has already opened. *)
Lemma scan_lists_every_code_witness :
  let codes := [Rig.qr (bytes_lit Rig.link); Rig.qr (bytes_lit Rig.ftp)] in
  let a := Rig.shot [10; 20; 30] codes in
  let gray := Rig.shot [Rig.luma 10 20 30] codes in
  let w := Rig.saved a Rig.linked in
  files w !! "captured_image.jpg" = Some (Picture a) /\
  np_size a <> 0 /\
  cv2_cvtColor a COLOR_BGR2GRAY = inr gray /\
  decode gray <> [] /\
  texts_of (decode gray) [Rig.link; Rig.ftp] /\
  tree (snd (detect_code "captured_image.jpg" w)) =
    scan_rows 0 [Rig.link; Rig.ftp] /\
  length (tree (snd (detect_code "captured_image.jpg" w))) =
    length (decode gray) /\
  (forall (k : nat) (p : str),
     [Rig.link; Rig.ftp] !! k = Some p ->
     tree (snd (detect_code "captured_image.jpg" w)) !! k =
       Some (mkRow (TextInt (Z.of_nat k)) (Z.of_nat k + 1) p)) /\
  seen_barcodes (snd (detect_code "captured_image.jpg" w)) = seen_barcodes w.
Proof.
  cbv zeta.
  split; [reflexivity |]. split; [discriminate |]. split; [reflexivity |].
  split; [discriminate |]. split; [repeat constructor |].
  apply (@scan_lists_every_code Rig.vision "captured_image.jpg"
           (Rig.shot [10; 20; 30]
              [Rig.qr (bytes_lit Rig.link); Rig.qr (bytes_lit Rig.ftp)])
           (Rig.shot [Rig.luma 10 20 30]
              [Rig.qr (bytes_lit Rig.link); Rig.qr (bytes_lit Rig.ftp)]));
    [reflexivity | discriminate | reflexivity | discriminate
    | repeat constructor].
Defined.

(** C9 at the row ["ftp://host/res"], the user answering OK. *)
Lemma select_link_dispatch_witness :
  let row := mkRow (TextInt 0) 1 Rig.ftp in
  let w := Rig.picked [row] 0 in
  let asked :=
    set_confirms
      [("The item selected is not a link. Do you still want to open it?",
        "Confirmation")] w in
  selection w = [0%nat] /\
  tree w !! 0%nat = Some row /\
  (startswith Rig.ftp "https:" = true ->
   select_link "OK" w = (inr tt, set_browser [Rig.ftp] w)) /\
  (startswith Rig.ftp "https:" = false ->
   select_link "OK" w = (inr tt, set_browser [Rig.ftp] asked)).
Proof.
  cbv zeta.
  split; [reflexivity |]. split; [reflexivity |].
  apply (@select_link_dispatch Rig.vision "OK"
           (Rig.picked [mkRow (TextInt 0) 1 Rig.ftp] 0) 0%nat []
           (mkRow (TextInt 0) 1 Rig.ftp)); reflexivity.
Defined.

(** ** The scenarios of the specification, run *)

(** Two frames showing the same link: one dispatch, one row, and the
    second frame is labelled the way of a payload already seen. *)
Example same_link_twice :
  let shots := [Rig.frame [Rig.qr (bytes_lit Rig.link)];
                Rig.frame [Rig.qr (bytes_lit Rig.link)]] in
  let w := process_frames shots Rig.bare in
  browser w = [Rig.link] /\
  tree w = [mkRow (TextInt 0) 1 Rig.link] /\
  match fst (decode_barcodes_over_feed
               (Rig.frame [Rig.qr (bytes_lit Rig.link)]) Rig.linked) with
  | inr img => Rig.strokes (np_array img)
  | inl _ => []
  end
  = [Rig.Box (0, 0) (1, 1) (225, 225, 225) 2;
     Rig.Text Rig.link (0, -10) FONT_HERSHEY_SIMPLEX 1 (225, 225, 225) 2].
Proof. repeat split; reflexivity. Qed.

(** Ordinals restart with every frame and count the symbols already
    seen: a second symbol that is new is row 2 of its frame, and the first
    symbol of the next frame is row 1 again. *)
Example ordinals_restart_each_frame :
  let A := Rig.qr (bytes_lit Rig.link) in
  let B := Rig.qr (bytes_lit Rig.ftp) in
  let C := Rig.qr (bytes_lit "https://example.org") in
  tree (process_frames [Rig.frame [A]; Rig.frame [A; B]; Rig.frame [C]] Rig.bare)
  = [mkRow (TextInt 0) 1 Rig.link;
     mkRow (TextInt 1) 2 Rig.ftp;
     mkRow (TextInt 0) 1 "https://example.org"].
Proof. reflexivity. Qed.

(** Selecting ["ftp://host/res"] and declining: asked, nothing opened. *)
Example declined_link_is_not_opened :
  let w := snd (select_link "Cancel"
                  (Rig.picked [mkRow (TextInt 0) 1 Rig.ftp] 0)) in
  browser w = [] /\ length (confirms w) = 1%nat /\
  stdout w = ["User chose to cancel"].
Proof. repeat split; reflexivity. Qed.

(** A still scan lists a link that the live feed has already opened. *)
Example still_scan_ignores_dedup_set :
  let a := Rig.shot [10; 20; 30] [Rig.qr (bytes_lit Rig.link)] in
  let w := snd (detect_code "captured_image.jpg" (Rig.saved a Rig.linked)) in
  Rig.link ∈ seen_barcodes Rig.linked /\
  tree w = [mkRow (TextInt 0) 1 Rig.link] /\
  browser w = browser Rig.linked.
Proof.
  split; [vm_compute; set_solver |]. split; reflexivity.
Qed.

(** Taking a picture without a feed: an alert, and no file is written. *)
Example take_picture_without_feed :
  take_picture Rig.bare =
    (inr tt, set_alerts [("Please start the video feed first.", "Warning")]
               Rig.bare).
Proof. reflexivity. Qed.

(** ** [bytes.decode("utf-8")] on a few inputs *)

Example utf8_two_byte : utf8_valid [195; 169]%N = true.
Proof. reflexivity. Qed.
Example utf8_lone_ff : utf8_decode [xff] = inl UnicodeDecodeError.
Proof. reflexivity. Qed.
Example utf8_overlong : utf8_valid [192; 128]%N = false.
Proof. reflexivity. Qed.
Example utf8_surrogate : utf8_valid [237; 160; 128]%N = false.
Proof. reflexivity. Qed.
Example utf8_truncated : utf8_valid [226; 130]%N = false.
Proof. reflexivity. Qed.
Example utf8_max : utf8_valid [244; 143; 191; 191]%N = true.
Proof. reflexivity. Qed.
Example utf8_beyond_max : utf8_valid [244; 144; 128; 128]%N = false.
Proof. reflexivity. Qed.

(** * More of the handlers *)

(** ** Parts of the world a statement leaves alone *)

Section Frames.
Context `{Vision}.

#[export] Instance same_on_preorder {A} (f : World -> A) : PreOrder (same_on f).
Proof.
  split.
  - intros w. reflexivity.
  - intros w1 w2 w3 H12 H23. unfold same_on in *. congruence.
Qed.

End Frames.

(** Steps through a handler whose writes all miss the part in question. *)
Ltac frame_all :=
  repeat first
    [ solve [ unfold same_on; reflexivity ]
    | solve [ auto ]
    | keeps_step
    | progress unfold pymsgbox_alert, print, pyzbar_decode, tree_insert,
        label_after, label_configure, cvtColor, cv2_imwrite,
        cv2_VideoCapture, PIL_Image_open, load_image, cap_set,
        webbrowser_open, pymsgbox_confirm ].

Section Ticks.
Context `{Vision}.

Lemma decode_barcodes_over_feed_timers image :
  keeps (same_on (fun w => (timers w, cam_label w, cap w, files w, alerts w)))
    (decode_barcodes_over_feed image).
Proof.
  intros w. destruct (decode_barcodes_over_feed_spec image w) as (rows & E & _).
  rewrite E. reflexivity.
Qed.

Lemma decode_barcodes_over_feed_runs image w :
  detector_runs (snd (decode_barcodes_over_feed image w)) =
  detector_runs w ++ [np_array image].
Proof.
  destruct (decode_barcodes_over_feed_spec image w) as (rows & E & _).
  rewrite E. reflexivity.
Qed.

(** A tick, by what the read and the frame processing come to. *)
Lemma update_frame_unfold w :
  update_frame w =
  match cap_read w with
  | (inl e, w1) => (inl e, w1)
  | (inr (ret_, frame), w1) =>
      match tick_body ret_ (cv2_flip frame 1) w1 with
      | (inl e, w2) => (inl e, w2)
      | (inr _, w2) => (inr tt, set_timers (timers w2 ++ [10]) w2)
      end
  end.
Proof.
  unfold update_frame. unfold bind at 1.
  destruct (cap_read w) as [[e | [ret_ frame]] w1]; [reflexivity |].
  unfold bind at 1. fold (tick_body ret_ (cv2_flip frame 1)).
  destruct (tick_body ret_ (cv2_flip frame 1) w1) as [[e | []] w2]; reflexivity.
Qed.

Lemma cap_read_timers : keeps (same_on timers) cap_read.
Proof. unfold cap_read. frame_all. Qed.

Lemma tick_body_timers ret_ frame : keeps (same_on timers) (tick_body ret_ frame).
Proof.
  unfold tick_body. destruct ret_; [| frame_all].
  keeps_step; [frame_all |]. keeps_step; [| frame_all].
  intros w. pose proof (decode_barcodes_over_feed_timers (fromarray a) w) as E.
  unfold same_on in *. congruence.
Qed.

End Ticks.

Section Reads.
Context `{Vision}.

Lemma cap_read_open w c r c' :
  cap w = Some c -> read c = (r, c') ->
  cap_read w = (inr r, set_cap (Some c') w).
Proof.
  intros Hcap Hread. unfold cap_read. unfold bind at 1, gets at 1.
  rewrite Hcap, Hread. reflexivity.
Qed.

(** The loop over the symbols raises at the first payload that is no
    text. *)
Lemma feed_loop_raises barcodes : forall i image_np w,
  Exists (fun c => ~ decodable c) barcodes ->
  fst (feed_loop i barcodes image_np w) = inl UnicodeDecodeError.
Proof.
  induction barcodes as [| c rest IH]; intros i image_np w Hex;
    [inversion Hex |].
  rewrite feed_loop_cons.
  destruct (utf8_decode (data c)) as [e | p] eqn:Hdec.
  - unfold utf8_decode in Hdec.
    destruct (utf8_valid _); [discriminate |]. by injection Hdec as <-.
  - apply Exists_cons in Hex as [Hbad | Hex].
    + exfalso. apply Hbad. by exists p.
    + destruct (decide (p ∈ seen_barcodes w)); apply IH; assumption.
Qed.

Lemma decode_barcodes_over_feed_raises image w :
  Exists (fun c => ~ decodable c) (decode (np_array image)) ->
  fst (decode_barcodes_over_feed image w) = inl UnicodeDecodeError.
Proof.
  intros Hex. unfold decode_barcodes_over_feed, pyzbar_decode.
  unfold bind at 1. unfold bind at 1. unfold modify at 1. unfold ret at 1.
  unfold bind at 1.
  pose proof (feed_loop_raises _ 0 (np_array image)
                (detector_ran (np_array image) w) Hex) as E.
  fold (detector_ran (np_array image) w).
  destruct (feed_loop 0 _ _ _) as [[e | a] w1]; simpl in E; [| discriminate].
  simpl. by injection E as ->.
Qed.

End Reads.

(** ** The timer callback *)

Section Polling.
Context `{Vision}.

(** X5. A tick queues the next one exactly when it returns: whatever
    raises in it (a closed script's missing capture, a conversion, a
    payload that is no text) leaves the queue of pending ticks as it was,
    and that polling loop is over. *)
Theorem tick_reschedules_iff_returns (w : World) :
  timers (snd (update_frame w)) =
  match fst (update_frame w) with
  | inr _ => timers w ++ [10]
  | inl _ => timers w
  end.
Proof.
  rewrite update_frame_unfold.
  pose proof (cap_read_timers w) as E1.
  destruct (cap_read w) as [[e | [ret_ frame]] w1]; simpl in *; [exact E1 |].
  pose proof (tick_body_timers ret_ (cv2_flip frame 1) w1) as E2.
  destruct (tick_body ret_ (cv2_flip frame 1) w1) as [[e | []] w2];
    unfold same_on in *; simpl in *; congruence.
Qed.

(** A tick whose read and conversions succeed, by what the frame
    processing comes to. *)
Lemma update_frame_captured w c c' frame mirrored rgb :
  cap w = Some c ->
  read c = ((true, frame), c') ->
  cv2_flip frame 1 = Some mirrored ->
  cv2_cvtColor mirrored COLOR_BGR2RGB = inr rgb ->
  update_frame w =
  match decode_barcodes_over_feed (fromarray rgb) (set_cap (Some c') w) with
  | (inl e, w2) => (inl e, w2)
  | (inr img, w2) =>
      (inr tt, set_timers (timers w2 ++ [10]) (set_cam_label (Some img) w2))
  end.
Proof.
  intros Hcap Hread Hflip Hrgb. rewrite update_frame_unfold.
  rewrite (cap_read_open w c _ c' Hcap Hread), Hflip.
  unfold tick_body. unfold bind at 1, cvtColor at 1, lift at 1. rewrite Hrgb.
  unfold bind at 1.
  destruct (decode_barcodes_over_feed _ _) as [[e | img] w2]; reflexivity.
Qed.

(** X6. A tick whose capture succeeds runs the detector exactly once, on
    the mirrored frame converted to RGB, whether the pass over the symbols
    then returns or raises. *)
Theorem tick_runs_detector_once (w : World) (c c' : VideoCapture)
    (frame : option ndarray) (mirrored rgb : ndarray) :
  cap w = Some c ->
  read c = ((true, frame), c') ->
  cv2_flip frame 1 = Some mirrored ->
  cv2_cvtColor mirrored COLOR_BGR2RGB = inr rgb ->
  detector_runs (snd (update_frame w)) = detector_runs w ++ [rgb].
Proof.
  intros Hcap Hread Hflip Hrgb.
  rewrite (update_frame_captured w c c' frame mirrored rgb) by assumption.
  pose proof (decode_barcodes_over_feed_runs (fromarray rgb)
                (set_cap (Some c') w)) as E.
  destruct (decode_barcodes_over_feed _ _) as [[e | img] w2]; exact E.
Qed.

(** X7. One symbol in view whose payload is not UTF-8 ends the live feed:
    the tick raises [UnicodeDecodeError], queues no next tick, and the
    label keeps the image it had. *)
Theorem undecodable_payload_stops_feed (w : World) (c c' : VideoCapture)
    (frame : option ndarray) (mirrored rgb : ndarray) :
  cap w = Some c ->
  read c = ((true, frame), c') ->
  cv2_flip frame 1 = Some mirrored ->
  cv2_cvtColor mirrored COLOR_BGR2RGB = inr rgb ->
  Exists (fun s => ~ decodable s) (decode rgb) ->
  fst (update_frame w) = inl UnicodeDecodeError /\
  timers (snd (update_frame w)) = timers w /\
  cam_label (snd (update_frame w)) = cam_label w.
Proof.
  intros Hcap Hread Hflip Hrgb Hbad.
  rewrite (update_frame_captured w c c' frame mirrored rgb) by assumption.
  pose proof (decode_barcodes_over_feed_raises (fromarray rgb)
                (set_cap (Some c') w) Hbad) as E.
  pose proof (decode_barcodes_over_feed_timers (fromarray rgb)
                (set_cap (Some c') w)) as F.
  destruct (decode_barcodes_over_feed _ _) as [[e | img] w2]; simpl in *;
    [| discriminate].
  unfold same_on in F. simpl in F. injection F as F1 F2 _ _ _.
  injection E as ->. split; [reflexivity |]. split; assumption.
Qed.

End Polling.

(** ** Taking a picture *)

Section Pictures.
Context `{Vision}.

Lemma take_picture_needs_feed_now (w : World) :
  camera_off w ->
  take_picture w = (inr tt, set_alerts (alerts w ++ [feed_warning]) w).
Proof.
  unfold camera_off, take_picture. intros Hoff.
  unfold bind at 1, gets at 1.
  destruct (cap w) as [c |]; [rewrite Hoff |]; reflexivity.
Qed.

(** X1. Without a feed (no capture yet, or a released one) [take_picture]
    returns after showing the warning, and that is all: the camera is not
    read, no file is written, nothing is printed. *)
Theorem take_picture_needs_feed (w : World) :
  camera_off w ->
  fst (take_picture w) = inr tt /\
  alerts (snd (take_picture w)) = alerts w ++ [feed_warning] /\
  files (snd (take_picture w)) = files w /\
  cap (snd (take_picture w)) = cap w /\
  stdout (snd (take_picture w)) = stdout w.
Proof.
  intros Hoff. rewrite (take_picture_needs_feed_now w Hoff).
  repeat split; reflexivity.
Qed.

(** [take_picture] with the feed running, by the outcome of the read. *)
Lemma take_picture_reads w c r frame c' :
  cap w = Some c -> isOpened c = true -> read c = ((r, frame), c') ->
  take_picture w =
  if r then
    match cv2_flip frame 1 with
    | Some mirrored =>
        (inr tt,
         set_stdout (stdout w ++ ["Image captured and saved as 'captured_image.jpg'"])
           (set_files (<[ "captured_image.jpg" := Picture (jpeg mirrored) ]> (files w))
              (set_cap (Some c') w)))
    | None => (inl cv2_error, set_cap (Some c') w)
    end
  else
    (inr tt, set_alerts (alerts w ++ [("Failed to capture image.", "Error")])
               (set_cap (Some c') w)).
Proof.
  intros Hcap Hopen Hread. unfold take_picture.
  unfold bind at 1, gets at 1. rewrite Hcap, Hopen. cbn [negb].
  unfold bind at 1. rewrite (cap_read_open w c _ c' Hcap Hread).
  destruct r; [| reflexivity].
  unfold cv2_imwrite. destruct (cv2_flip frame 1); reflexivity.
Qed.

Lemma read_true_opened c frame c' :
  read c = ((true, frame), c') -> isOpened c = true.
Proof.
  unfold read. destruct (isOpened c); [reflexivity | discriminate].
Qed.

(** X2. With the feed running and a frame read, [take_picture] writes the
    mirrored frame to [captured_image.jpg], replacing what was there and
    touching no other file, prints its message and shows no alert. *)
Theorem take_picture_saves_frame (w : World) (c c' : VideoCapture)
    (frame : option ndarray) (mirrored : ndarray) :
  cap w = Some c ->
  read c = ((true, frame), c') ->
  cv2_flip frame 1 = Some mirrored ->
  fst (take_picture w) = inr tt /\
  files (snd (take_picture w)) !! "captured_image.jpg" =
    Some (Picture (jpeg mirrored)) /\
  (forall path, path <> "captured_image.jpg" ->
     files (snd (take_picture w)) !! path = files w !! path) /\
  alerts (snd (take_picture w)) = alerts w /\
  stdout (snd (take_picture w)) =
    stdout w ++ ["Image captured and saved as 'captured_image.jpg'"].
Proof.
  intros Hcap Hread Hflip.
  rewrite (take_picture_reads w c true frame c' Hcap
             (read_true_opened c frame c' Hread) Hread), Hflip.
  simpl. split; [reflexivity |]. split; [apply lookup_insert_eq |].
  split; [| split; reflexivity].
  intros path Hpath. by apply lookup_insert_ne.
Qed.

(** X3. With the feed running and the read failing, [take_picture] shows
    the error alert and writes nothing. *)
Theorem take_picture_failed_read (w : World) (c c' : VideoCapture)
    (frame : option ndarray) :
  cap w = Some c ->
  isOpened c = true ->
  read c = ((false, frame), c') ->
  take_picture w =
    (inr tt, set_alerts (alerts w ++ [("Failed to capture image.", "Error")])
               (set_cap (Some c') w)) /\
  files (snd (take_picture w)) = files w.
Proof.
  intros Hcap Hopen Hread.
  rewrite (take_picture_reads w c false frame c' Hcap Hopen Hread).
  split; reflexivity.
Qed.

End Pictures.

(** ** More of the still scan *)

Section Scans.
Context `{Vision}.

Lemma scan_loop_frame decoded_image : forall i img_np,
  keeps (same_on (fun w => (cap w, files w, timers w, alerts w, detector_runs w,
                            cam_label w)))
    (scan_loop i decoded_image img_np).
Proof.
  induction decoded_image as [| barcode rest IH]; intros i img_np.
  - simpl. frame_all.
  - intros w. rewrite scan_loop_cons.
    destruct (utf8_decode (data barcode)); [reflexivity |].
    etransitivity; [| apply IH]. reflexivity.
Qed.

(** The scan of a loaded picture, by what its loop and the last
    conversion come to. *)
Lemma scan_picture_unfold a gray w :
  cv2_cvtColor a COLOR_BGR2GRAY = inr gray ->
  scan_picture (fromarray a) w =
  match scan_loop 0 (decode gray) a
          (if decide (length (decode gray) = 0%nat)
           then set_tree (tree w ++ [sentinel]) (selection w)
                  (detector_ran gray w)
           else detector_ran gray w) with
  | (inl e, w3) => (inl e, w3)
  | (inr img_np, w3) =>
      match cv2_cvtColor img_np COLOR_BGR2RGB with
      | inl e => (inl e, w3)
      | inr out => (inr tt, set_cam_label (Some (fromarray out)) w3)
      end
  end.
Proof.
  intros Hgray. unfold scan_picture. cbn [np_array].
  unfold bind at 1, cvtColor at 1, lift at 1. rewrite Hgray.
  unfold bind at 1, pyzbar_decode at 1.
  unfold bind at 1, modify at 1, ret at 1. fold (detector_ran gray w).
  unfold bind at 1.
  assert (E : (if decide (length (decode gray) = 0%nat)
               then tree_insert (TextStr "n/a") (1, NO_BARCODES)
               else ret tt) (detector_ran gray w)
              = (inr tt, if decide (length (decode gray) = 0%nat)
                         then set_tree (tree w ++ [sentinel]) (selection w)
                                (detector_ran gray w)
                         else detector_ran gray w)).
  { destruct (decide _); reflexivity. }
  rewrite E. unfold bind at 1.
  destruct (scan_loop 0 _ _ _) as [[e | img] w3]; [reflexivity |].
  unfold bind, cvtColor, lift, label_configure, modify.
  destruct (cv2_cvtColor img COLOR_BGR2RGB); reflexivity.
Qed.

Lemma scan_picture_runs a gray w :
  cv2_cvtColor a COLOR_BGR2GRAY = inr gray ->
  detector_runs (snd (scan_picture (fromarray a) w)) = detector_runs w ++ [gray].
Proof.
  intros Hgray. rewrite (scan_picture_unfold a gray w Hgray).
  match goal with |- context [scan_loop 0 ?l a ?w0] =>
    pose proof (scan_loop_frame l 0 a w0) as F;
    assert (E0 : detector_runs w0 = detector_runs w ++ [gray])
      by (destruct (decide _); reflexivity);
    destruct (scan_loop 0 l a w0) as [[e | img] w3]
  end; unfold same_on in F; simpl in F; injection F as _ _ _ _ F _.
  - simpl. congruence.
  - destruct (cv2_cvtColor img COLOR_BGR2RGB); simpl; congruence.
Qed.

(** The scan never touches the capture beyond releasing it. *)
Lemma scan_picture_cap img w : cap (snd (scan_picture img w)) = cap w.
Proof.
  assert (K : keeps (same_on cap) (scan_picture img)).
  { unfold scan_picture. keeps_step; [frame_all |].
    keeps_step; [frame_all |]. keeps_step; [frame_all |].
    keeps_step; [| frame_all].
    intros w0. pose proof (scan_loop_frame a0 0 (np_array img) w0) as F.
    unfold same_on in *. by injection F. }
  apply K.
Qed.

Lemma cap_scan_begun w : cap (scan_begun w) = release <$> cap w.
Proof.
  unfold scan_begun. destruct (cap w) eqn:E; simpl; [reflexivity | exact E].
Qed.

Lemma detect_code_cap image w :
  cap (snd (detect_code image w)) = release <$> cap w.
Proof.
  rewrite detect_code_unfold, <- cap_scan_begun.
  destruct (fst (load_image image (scan_begun w))) as [e | img].
  - destruct (is_FileNotFound_or_ValueError e); reflexivity.
  - apply scan_picture_cap.
Qed.

Lemma detect_code_camera_off image w : camera_off (snd (detect_code image w)).
Proof.
  unfold camera_off. rewrite detect_code_cap.
  destruct (cap w); simpl; done.
Qed.

(** The loop stops at the first payload that is no text, the rows of the
    symbols before it inserted. *)
Lemma scan_loop_stops good : forall payloads bad rest e i img_np w,
  texts_of good payloads ->
  utf8_decode (data bad) = inl e ->
  scan_loop i (good ++ bad :: rest) img_np w =
    (inl e, set_tree (tree w ++ scan_rows i payloads) (selection w) w).
Proof.
  induction good as [| c good IH]; intros payloads bad rest e i img_np w Ht Hbad;
    inversion Ht as [| ? p ? ps Hc Hps]; subst.
  - simpl app. rewrite scan_loop_cons, Hbad. simpl. rewrite app_nil_r.
    by destruct w.
  - simpl app. rewrite scan_loop_cons, Hc.
    rewrite (IH ps bad rest e) by assumption.
    f_equal. unfold set_tree. simpl. by rewrite <- app_assoc.
Qed.

End Scans.

Section ScanExtras.
Context `{Vision}.

(** X4. Picture and scan compose: after [take_picture] has saved a frame,
    [detect_code] on its default path loads what was written, runs the
    detector once, on the grayscale of the saved, mirrored frame, and
    leaves the camera released. *)
Theorem saved_picture_is_scanned (w : World) (c c' : VideoCapture)
    (frame : option ndarray) (mirrored gray : ndarray) :
  cap w = Some c ->
  read c = ((true, frame), c') ->
  cv2_flip frame 1 = Some mirrored ->
  np_size (jpeg mirrored) <> 0 ->
  cv2_cvtColor (jpeg mirrored) COLOR_BGR2GRAY = inr gray ->
  detector_runs (run [TakePicture; DetectCode] w) = detector_runs w ++ [gray] /\
  cap (run [TakePicture; DetectCode] w) = Some (release c').
Proof.
  intros Hcap Hread Hflip Hsz Hgray. simpl.
  rewrite (take_picture_reads w c true frame c' Hcap
             (read_true_opened c frame c' Hread) Hread), Hflip.
  cbn [snd].
  match goal with |- context [detect_code _ ?w0] => set (w1 := w0) end.
  split.
  - rewrite detect_code_unfold.
    rewrite (load_image_picture _ (jpeg mirrored) (scan_begun w1));
      [| rewrite files_scan_begun; apply lookup_insert_eq | exact Hsz].
    rewrite (scan_picture_runs _ gray) by exact Hgray.
    reflexivity.
  - rewrite detect_code_cap. reflexivity.
Qed.


(** X15. A file that cannot be read, or that is no image, makes
    [detect_code] raise the [OSError]: the except clause does not catch
    it, no alert is shown, the detector is not run and the label keeps
    its image; the rows have already been emptied. *)
Theorem unreadable_file_raises_without_alert (image : str) (w : World) :
  (files w !! image = Some Junk \/ files w !! image = Some Locked) ->
  exists msg : str,
    detect_code image w = (inl (OSError msg), scan_begun w) /\
    alerts (snd (detect_code image w)) = alerts w /\
    detector_runs (snd (detect_code image w)) = detector_runs w /\
    cam_label (snd (detect_code image w)) = cam_label w /\
    tree (snd (detect_code image w)) = [].
Proof.
  intros Hfile. rewrite detect_code_unfold.
  assert (E : exists msg, fst (load_image image (scan_begun w)) = inl (OSError msg)).
  { unfold load_image, PIL_Image_open, bind, gets. rewrite files_scan_begun.
    destruct Hfile as [-> | ->]; eexists; reflexivity. }
  destruct E as [msg ->]. exists msg. cbn [is_FileNotFound_or_ValueError].
  split; [reflexivity |]. cbn [snd].
  unfold scan_begun. destruct (cap w); repeat split; reflexivity.
Qed.

(** X16. A still scan whose payloads are all text and whose conversions
    succeed returns, having run the detector once on the grayscale
    picture, and puts on the label the picture with one red box of
    thickness 4 for every symbol, drawn in the detector's order and then
    converted BGR to RGB; no alert is shown. *)
Theorem scan_shows_boxed_picture (image : str) (a gray out : ndarray)
    (payloads : list str) (w : World) :
  files w !! image = Some (Picture a) ->
  np_size a <> 0 ->
  cv2_cvtColor a COLOR_BGR2GRAY = inr gray ->
  texts_of (decode gray) payloads ->
  cv2_cvtColor (draw_boxes (decode gray) a) COLOR_BGR2RGB = inr out ->
  fst (detect_code image w) = inr tt /\
  cam_label (snd (detect_code image w)) = Some (fromarray out) /\
  detector_runs (snd (detect_code image w)) = detector_runs w ++ [gray] /\
  alerts (snd (detect_code image w)) = alerts w.
Proof.
  intros Hf Hsz Hgray Htexts Hout.
  assert (Hruns : detector_runs (scan_begun w) = detector_runs w)
    by (unfold scan_begun; destruct (cap w); reflexivity).
  assert (Halerts : alerts (scan_begun w) = alerts w)
    by (unfold scan_begun; destruct (cap w); reflexivity).
  rewrite detect_code_unfold.
  rewrite (load_image_picture image a (scan_begun w))
    by (by rewrite ?files_scan_begun).
  rewrite (scan_picture_unfold a gray _ Hgray).
  rewrite (scan_loop_texts _ payloads) by exact Htexts.
  rewrite Hout. cbn [fst snd].
  split; [reflexivity |]. split; [reflexivity |].
  destruct (decide (length (decode gray) = 0%nat)); simpl;
    rewrite <- Hruns, <- Halerts; split; reflexivity.
Qed.

(** X17. A still scan stops at the first symbol whose payload is not
    UTF-8: it raises [UnicodeDecodeError], the rows of the symbols before
    it are in the Treeview, numbered from 1, those of the later ones are
    not, and the label keeps the image it had. *)
Theorem scan_stops_at_undecodable (image : str) (a gray : ndarray)
    (good rest : list Decoded) (bad : Decoded) (payloads : list str)
    (w : World) :
  files w !! image = Some (Picture a) ->
  np_size a <> 0 ->
  cv2_cvtColor a COLOR_BGR2GRAY = inr gray ->
  decode gray = good ++ bad :: rest ->
  texts_of good payloads ->
  ~ decodable bad ->
  fst (detect_code image w) = inl UnicodeDecodeError /\
  tree (snd (detect_code image w)) = scan_rows 0 payloads /\
  cam_label (snd (detect_code image w)) = cam_label w.
Proof.
  intros Hf Hsz Hgray Hcodes Htexts Hbad.
  assert (Hdec : utf8_decode (data bad) = inl UnicodeDecodeError).
  { destruct (utf8_decode (data bad)) as [e | p] eqn:E.
    - unfold utf8_decode in E. destruct (utf8_valid _); [discriminate |].
      by injection E as <-.
    - exfalso. apply Hbad. by exists p. }
  assert (Hcam : cam_label (scan_begun w) = cam_label w)
    by (unfold scan_begun; destruct (cap w); reflexivity).
  rewrite detect_code_unfold.
  rewrite (load_image_picture image a (scan_begun w))
    by (by rewrite ?files_scan_begun).
  rewrite (scan_picture_unfold a gray _ Hgray), Hcodes.
  destruct (decide (length (good ++ bad :: rest) = 0%nat)) as [Hlen | _].
  { rewrite length_app in Hlen. simpl in Hlen. lia. }
  rewrite (scan_loop_stops good payloads bad rest UnicodeDecodeError)
    by assumption.
  cbn [fst snd]. split; [reflexivity |]. split; [| exact Hcam].
  unfold scan_begun. destruct (cap w); reflexivity.
Qed.

End ScanExtras.

(** ** More of the live feed *)

Section Live.
Context `{Vision}.

(** The rows of a frame hold the payload of a symbol that is new when
    the loop reaches it. *)
Lemma new_payload_row image w (j : nat) barcode p :
  decode (np_array image) !! j = Some barcode ->
  utf8_decode (data barcode) = inr p ->
  p ∉ seen_barcodes w ->
  (forall (k : nat) c,
     (k < j)%nat -> decode (np_array image) !! k = Some c ->
     exists q, utf8_decode (data c) = inr q /\ q <> p) ->
  exists rows : list Row,
    snd (decode_barcodes_over_feed image w) =
      feed_effect rows (detector_ran (np_array image) w) /\
    NoDup (row_data <$> rows) /\
    p ∈ row_data <$> rows.
Proof.
  intros Hj Hdec Hnew Hbefore.
  destruct (decode_barcodes_over_feed_spec image w) as (rows & E & ND & _).
  exists rows. split; [exact E |]. split; [exact ND |].
  assert (Hrow : mkRow (TextInt (0 + Z.of_nat j)) (0 + Z.of_nat j + 1) p ∈ rows).
  { apply (feed_loop_emits (decode (np_array image)) 0 (np_array image)
             (detector_ran (np_array image) w) j barcode p rows);
      try assumption.
    rewrite <- decode_barcodes_over_feed_world, E. reflexivity. }
  apply (list_elem_of_fmap_2 row_data) in Hrow. exact Hrow.
Qed.

(** X8. A symbol whose payload is new when the loop reaches it (it is
    not in the dedup set, and the symbols before it in the frame decode to
    other payloads) is opened in the browser exactly once by that frame
    and is in the dedup set afterwards. *)
Theorem new_payload_dispatched_once (image : Image) (w : World) (j : nat)
    (barcode : Decoded) (p : str) :
  decode (np_array image) !! j = Some barcode ->
  utf8_decode (data barcode) = inr p ->
  p ∉ seen_barcodes w ->
  (forall (k : nat) c,
     (k < j)%nat -> decode (np_array image) !! k = Some c ->
     exists q, utf8_decode (data c) = inr q /\ q <> p) ->
  p ∈ seen_barcodes (snd (decode_barcodes_over_feed image w)) /\
  exists new : list str,
    browser (snd (decode_barcodes_over_feed image w)) = browser w ++ new /\
    NoDup new /\ p ∈ new.
Proof.
  intros Hj Hdec Hnew Hbefore.
  destruct (new_payload_row image w j barcode p Hj Hdec Hnew Hbefore)
    as (rows & E & ND & Hp).
  rewrite E. split; [simpl; set_solver |].
  exists (row_data <$> rows). split; [reflexivity |]. split; assumption.
Qed.

Lemma feed_effect_mirrors rows a w :
  mirrors w -> mirrors (feed_effect rows (detector_ran a w)).
Proof.
  intros [Hb Hs]. split; simpl.
  - by rewrite Hb, fmap_app.
  - rewrite Hs, list_to_set_app_L. reflexivity.
Qed.

Lemma process_frames_mirrors imgs : forall w,
  mirrors w -> mirrors (process_frames imgs w).
Proof.
  induction imgs as [| img imgs IH]; intros w Hw; simpl; [exact Hw |].
  apply IH.
  destruct (decode_barcodes_over_feed_spec img w) as (rows & E & _).
  rewrite E. by apply feed_effect_mirrors.
Qed.

(** X9. In a session of live frames the three records agree at every
    moment: the payloads opened in the browser are, in order, the data
    column of the rows, and the dedup set is exactly the set of them. *)
Theorem live_rows_browser_and_set_agree (imgs : list Image)
    (fs : gmap string File) (devs : Z -> option (list (option ndarray))) :
  browser (process_frames imgs (session_start fs devs)) =
    row_data <$> tree (process_frames imgs (session_start fs devs)) /\
  seen_barcodes (process_frames imgs (session_start fs devs)) =
    list_to_set (browser (process_frames imgs (session_start fs devs))).
Proof.
  apply process_frames_mirrors. split; reflexivity.
Qed.

(** A tick with the camera off. *)
Lemma update_frame_camera_off w :
  camera_off w ->
  camera_off (snd (update_frame w)) /\
  (cam_label (snd (update_frame w)), tree (snd (update_frame w)),
   seen_barcodes (snd (update_frame w)), browser (snd (update_frame w)),
   detector_runs (snd (update_frame w))) =
  (cam_label w, tree w, seen_barcodes w, browser w, detector_runs w).
Proof.
  unfold camera_off. intros Hoff.
  unfold update_frame, cap_read, read, label_after, bind, gets, modify, ret,
    raise.
  destruct (cap w) as [c |] eqn:Hcap; simpl.
  - rewrite Hoff. simpl. by split.
  - rewrite Hcap. by split.
Qed.

Lemma tick_camera_off w :
  camera_off w ->
  camera_off (handle Tick w) /\
  (cam_label (handle Tick w), tree (handle Tick w),
   seen_barcodes (handle Tick w), browser (handle Tick w),
   detector_runs (handle Tick w)) =
  (cam_label w, tree w, seen_barcodes w, browser w, detector_runs w).
Proof.
  intros Hoff. simpl.
  destruct (timers w) as [| t pending]; [by split |].
  apply (update_frame_camera_off (set_timers pending w)). exact Hoff.
Qed.

Lemma ticks_camera_off (n : nat) : forall w,
  camera_off w ->
  (cam_label (run (replicate n Tick) w), tree (run (replicate n Tick) w),
   seen_barcodes (run (replicate n Tick) w), browser (run (replicate n Tick) w),
   detector_runs (run (replicate n Tick) w)) =
  (cam_label w, tree w, seen_barcodes w, browser w, detector_runs w).
Proof.
  induction n as [| n IH]; intros w Hoff; [reflexivity |].
  destruct (tick_camera_off w Hoff) as [Hoff' E].
  change (run (replicate (S n) Tick) w)
    with (run (replicate n Tick) (handle Tick w)).
  rewrite (IH _ Hoff'). exact E.
Qed.

(** X11. A still scan freezes the live feed: after [detect_code],
    however it ended, no number of timer ticks runs the detector, changes
    the image on the label, the rows, the dedup set or the browser log. *)
Theorem feed_frozen_after_scan (image : str) (w : World) (n : nat) :
  let w1 := snd (detect_code image w) in
  let w2 := run (replicate n Tick) w1 in
  cam_label w2 = cam_label w1 /\
  tree w2 = tree w1 /\
  seen_barcodes w2 = seen_barcodes w1 /\
  browser w2 = browser w1 /\
  detector_runs w2 = detector_runs w1.
Proof.
  intros w1 w2.
  pose proof (ticks_camera_off n w1 (detect_code_camera_off image w)) as E.
  fold w2 in E. injection E as E1 E2 E3 E4 E5. repeat split; assumption.
Qed.

End Live.

(** ** The click on a row, and the start of the feed *)

Section Clicks.
Context `{Vision}.

(** [select_link], case by case. *)
Lemma select_link_cases response w :
  select_link response w =
  match selection w with
  | [] => (inl IndexError, w)
  | k :: _ =>
      match tree w !! k with
      | None => (inl TclError, w)
      | Some row =>
          if startswith (row_data row) "https:"
          then (inr tt, set_browser (browser w ++ [row_data row]) w)
          else
            let asked :=
              set_confirms
                (confirms w ++
                   [("The item selected is not a link. Do you still want to open it?",
                     "Confirmation")]) w in
            if decide (response = "OK")
            then (inr tt, set_browser (browser w ++ [row_data row]) asked)
            else (inr tt, set_stdout (stdout w ++ ["User chose to cancel"]) asked)
      end
  end.
Proof.
  unfold select_link. unfold bind at 1, gets at 1.
  destruct (selection w) as [| k others]; [reflexivity |].
  unfold bind at 1, gets at 1.
  destruct (tree w !! k) as [row |]; [| reflexivity].
  destruct (startswith (row_data row) "https:"); [reflexivity |].
  unfold bind at 1, pymsgbox_confirm at 1.
  unfold bind at 1, modify at 1, ret at 1.
  destruct (decide (response = "OK")); reflexivity.
Qed.

(** X12. [select_link] writes to the browser, the confirmation dialog and
    the console only: dedup set, rows, selection, camera, files, label,
    alerts, timers and detector are as before.  It opens at most one
    page, the data of the first selected row, and with nothing selected it
    raises [IndexError] and changes nothing. *)
Theorem select_link_opens_only_selected (response : str) (w : World) :
  (seen_barcodes (snd (select_link response w)),
   tree (snd (select_link response w)),
   selection (snd (select_link response w)),
   cap (snd (select_link response w)),
   files (snd (select_link response w)),
   cam_label (snd (select_link response w)),
   alerts (snd (select_link response w)),
   timers (snd (select_link response w)),
   detector_runs (snd (select_link response w))) =
  (seen_barcodes w, tree w, selection w, cap w, files w, cam_label w,
   alerts w, timers w, detector_runs w) /\
  (browser (snd (select_link response w)) = browser w \/
   exists (k : nat) (row : Row),
     head (selection w) = Some k /\ tree w !! k = Some row /\
     browser (snd (select_link response w)) = browser w ++ [row_data row]) /\
  (selection w = [] -> select_link response w = (inl IndexError, w)).
Proof.
  rewrite select_link_cases.
  destruct (selection w) as [| k others] eqn:Hsel; cbn [head].
  { split; [simpl; by rewrite ?Hsel |]. split; [by left | done]. }
  destruct (tree w !! k) as [row |] eqn:Hrow.
  2: { split; [simpl; by rewrite ?Hsel |]. split; [by left | done]. }
  destruct (startswith (row_data row) "https:").
  { split; [simpl; by rewrite ?Hsel |]. split; [| done].
    right. by exists k, row. }
  destruct (decide (response = "OK")).
  - split; [simpl; by rewrite ?Hsel |]. split; [| done].
    right. by exists k, row.
  - split; [simpl; by rewrite ?Hsel |]. split; [by left | done].
Qed.

Lemma select_link_https response w k others row :
  selection w = k :: others -> tree w !! k = Some row ->
  startswith (row_data row) "https:" = true ->
  select_link response w =
    (inr tt, set_browser (browser w ++ [row_data row]) w).
Proof.
  intros Hsel Hrow Hlink.
  by rewrite select_link_cases, Hsel, Hrow, Hlink.
Qed.

(** X13. Opening a row by hand does not mark its payload as seen: when
    the selected row holds an https link that is not in the dedup set (a
    row of a still scan), the click opens it, and the next live frame that
    shows it opens it once more. *)
Theorem hand_opened_link_opens_again (response : str) (w : World)
    (k : nat) (others : list nat) (row : Row) (image : Image) (j : nat)
    (barcode : Decoded) :
  selection w = k :: others ->
  tree w !! k = Some row ->
  startswith (row_data row) "https:" = true ->
  row_data row ∉ seen_barcodes w ->
  decode (np_array image) !! j = Some barcode ->
  utf8_decode (data barcode) = inr (row_data row) ->
  (forall (i : nat) c,
     (i < j)%nat -> decode (np_array image) !! i = Some c ->
     exists q, utf8_decode (data c) = inr q /\ q <> row_data row) ->
  exists new : list str,
    browser (snd (decode_barcodes_over_feed image
                    (snd (select_link response w)))) =
      browser w ++ [row_data row] ++ new /\
    row_data row ∈ new.
Proof.
  intros Hsel Hrow Hlink Hnew Hj Hdec Hbefore.
  rewrite (select_link_https response w k others row Hsel Hrow Hlink).
  cbn [snd].
  destruct (new_payload_row image
              (set_browser (browser w ++ [row_data row]) w) j barcode
              (row_data row) Hj Hdec Hnew Hbefore) as (rows & E & _ & Hp).
  exists (row_data <$> rows). rewrite E. split; [| exact Hp].
  simpl. by rewrite <- app_assoc.
Qed.

(** [cam_feed] is a first tick on a fresh capture of the chosen camera. *)
Lemma cam_feed_unfold w :
  cam_feed w =
  update_frame
    (set_cap (Some (match devices w (camera_source w) with
                    | Some fs => mkCap true fs
                    | None => mkCap false []
                    end)) w).
Proof.
  unfold cam_feed, cv2_VideoCapture, cap_set.
  unfold bind at 1, gets at 1. unfold bind at 1.
  destruct (cap w) as [c |]; unfold modify at 1, ret at 1;
    unfold bind at 1, gets at 1; unfold bind at 1; unfold bind at 1;
    unfold gets at 1; cbn [devices set_cap camera_source];
    destruct (devices w (camera_source w)); reflexivity.
Qed.

(** X14. Every press of "Start feed" that returns queues one tick on top
    of those already pending: the polling loop of an earlier press is not
    stopped, the two go on side by side.  A press that raises queues
    none. *)
Theorem start_feed_adds_a_loop (w : World) :
  timers (snd (cam_feed w)) =
  match fst (cam_feed w) with
  | inr _ => timers w ++ [10]
  | inl _ => timers w
  end.
Proof.
  rewrite cam_feed_unfold.
  set (w0 := set_cap _ w).
  change (timers w) with (timers w0).
  rewrite update_frame_unfold.
  pose proof (cap_read_timers w0) as E1.
  destruct (cap_read w0) as [[e | [ret_ frame]] w1]; simpl in *; [exact E1 |].
  pose proof (tick_body_timers ret_ (cv2_flip frame 1) w1) as E2.
  destruct (tick_body ret_ (cv2_flip frame 1) w1) as [[e | []] w2];
    unfold same_on in *; simpl in *; congruence.
Qed.

End Clicks.

(** * The further properties on the rig *)

(** X1 in a session that has not started the feed. *)
Lemma take_picture_needs_feed_witness :
  camera_off Rig.bare /\
  fst (take_picture Rig.bare) = inr tt /\
  alerts (snd (take_picture Rig.bare)) = alerts Rig.bare ++ [feed_warning] /\
  files (snd (take_picture Rig.bare)) = files Rig.bare /\
  cap (snd (take_picture Rig.bare)) = cap Rig.bare /\
  stdout (snd (take_picture Rig.bare)) = stdout Rig.bare.
Proof.
  split; [exact I |].
  apply (@take_picture_needs_feed Rig.vision Rig.bare). exact I.
Defined.

(** X2 at a camera that delivers one frame. *)
Lemma take_picture_saves_frame_witness :
  let a := Rig.shot [10; 20; 30] [] in
  let w := Rig.rolling [Some a] in
  cap w = Some (Rig.camera [Some a]) /\
  read (Rig.camera [Some a]) = ((true, Some a), Rig.camera []) /\
  cv2_flip (Some a) 1 = Some a /\
  fst (take_picture w) = inr tt /\
  files (snd (take_picture w)) !! "captured_image.jpg" =
    Some (Picture (jpeg a)) /\
  (forall path, path <> "captured_image.jpg" ->
     files (snd (take_picture w)) !! path = files w !! path) /\
  alerts (snd (take_picture w)) = alerts w /\
  stdout (snd (take_picture w)) =
    stdout w ++ ["Image captured and saved as 'captured_image.jpg'"].
Proof.
  cbv zeta.
  split; [reflexivity |]. split; [reflexivity |]. split; [reflexivity |].
  apply (@take_picture_saves_frame Rig.vision
           (Rig.rolling [Some (Rig.shot [10; 20; 30] [])])
           (Rig.camera [Some (Rig.shot [10; 20; 30] [])]) (Rig.camera [])
           (Some (Rig.shot [10; 20; 30] [])) (Rig.shot [10; 20; 30] []));
    reflexivity.
Defined.

(** X3 at a camera whose next grab fails. *)
Lemma take_picture_failed_read_witness :
  cap Rig.stalled = Some (mkCap true [None]) /\
  isOpened (mkCap true [None]) = true /\
  read (mkCap true [None]) = ((false, None), mkCap true []) /\
  take_picture Rig.stalled =
    (inr tt, set_alerts [("Failed to capture image.", "Error")]
               (set_cap (Some (mkCap true [])) Rig.stalled)) /\
  files (snd (take_picture Rig.stalled)) = files Rig.stalled.
Proof.
  split; [reflexivity |]. split; [reflexivity |]. split; [reflexivity |].
  apply (@take_picture_failed_read Rig.vision Rig.stalled (mkCap true [None])
           (mkCap true []) None); reflexivity.
Defined.

(** X4 at a camera that delivers one frame showing a link. *)
Lemma saved_picture_is_scanned_witness :
  let codes := [Rig.qr (bytes_lit Rig.link)] in
  let a := Rig.shot [10; 20; 30] codes in
  let w := Rig.rolling [Some a] in
  cap w = Some (Rig.camera [Some a]) /\
  read (Rig.camera [Some a]) = ((true, Some a), Rig.camera []) /\
  cv2_flip (Some a) 1 = Some a /\
  np_size (jpeg a) <> 0 /\
  cv2_cvtColor (jpeg a) COLOR_BGR2GRAY =
    inr (Rig.shot [Rig.luma 10 20 30] codes) /\
  detector_runs (run [TakePicture; DetectCode] w) =
    detector_runs w ++ [Rig.shot [Rig.luma 10 20 30] codes] /\
  cap (run [TakePicture; DetectCode] w) = Some (release (Rig.camera [])).
Proof.
  cbv zeta.
  split; [reflexivity |]. split; [reflexivity |]. split; [reflexivity |].
  split; [discriminate |]. split; [reflexivity |].
  apply (@saved_picture_is_scanned Rig.vision
           (Rig.rolling [Some (Rig.shot [10; 20; 30] [Rig.qr (bytes_lit Rig.link)])])
           (Rig.camera [Some (Rig.shot [10; 20; 30] [Rig.qr (bytes_lit Rig.link)])])
           (Rig.camera [])
           (Some (Rig.shot [10; 20; 30] [Rig.qr (bytes_lit Rig.link)]))
           (Rig.shot [10; 20; 30] [Rig.qr (bytes_lit Rig.link)])
           (Rig.shot [Rig.luma 10 20 30] [Rig.qr (bytes_lit Rig.link)]));
    [reflexivity | reflexivity | reflexivity | discriminate | reflexivity].
Defined.

(** X6 at the same camera. *)
Lemma tick_runs_detector_once_witness :
  let codes := [Rig.qr (bytes_lit Rig.link)] in
  let a := Rig.shot [10; 20; 30] codes in
  let w := Rig.rolling [Some a] in
  cap w = Some (Rig.camera [Some a]) /\
  read (Rig.camera [Some a]) = ((true, Some a), Rig.camera []) /\
  cv2_flip (Some a) 1 = Some a /\
  cv2_cvtColor a COLOR_BGR2RGB = inr (Rig.shot [30; 20; 10] codes) /\
  detector_runs (snd (update_frame w)) =
    detector_runs w ++ [Rig.shot [30; 20; 10] codes].
Proof.
  cbv zeta.
  split; [reflexivity |]. split; [reflexivity |]. split; [reflexivity |].
  split; [reflexivity |].
  apply (@tick_runs_detector_once Rig.vision
           (Rig.rolling [Some (Rig.shot [10; 20; 30] [Rig.qr (bytes_lit Rig.link)])])
           (Rig.camera [Some (Rig.shot [10; 20; 30] [Rig.qr (bytes_lit Rig.link)])])
           (Rig.camera [])
           (Some (Rig.shot [10; 20; 30] [Rig.qr (bytes_lit Rig.link)]))
           (Rig.shot [10; 20; 30] [Rig.qr (bytes_lit Rig.link)])
           (Rig.shot [30; 20; 10] [Rig.qr (bytes_lit Rig.link)]));
    reflexivity.
Defined.

(** The payload [b"\xff"] is no text. *)
Lemma lone_ff_not_decodable : ~ decodable (Rig.qr [xff]).
Proof. intros [p Hp]. discriminate Hp. Qed.

(** X7 at a camera whose frame shows a symbol with the payload
    [b"\xff"]. *)
Lemma undecodable_payload_stops_feed_witness :
  let codes := [Rig.qr [xff]] in
  let a := Rig.shot [10; 20; 30] codes in
  let w := Rig.rolling [Some a] in
  cap w = Some (Rig.camera [Some a]) /\
  read (Rig.camera [Some a]) = ((true, Some a), Rig.camera []) /\
  cv2_flip (Some a) 1 = Some a /\
  cv2_cvtColor a COLOR_BGR2RGB = inr (Rig.shot [30; 20; 10] codes) /\
  Exists (fun s => ~ decodable s) (decode (Rig.shot [30; 20; 10] codes)) /\
  fst (update_frame w) = inl UnicodeDecodeError /\
  timers (snd (update_frame w)) = timers w /\
  cam_label (snd (update_frame w)) = cam_label w.
Proof.
  cbv zeta.
  split; [reflexivity |]. split; [reflexivity |]. split; [reflexivity |].
  split; [reflexivity |].
  split; [apply Exists_cons_hd, lone_ff_not_decodable |].
  apply (@undecodable_payload_stops_feed Rig.vision
           (Rig.rolling [Some (Rig.shot [10; 20; 30] [Rig.qr [xff]])])
           (Rig.camera [Some (Rig.shot [10; 20; 30] [Rig.qr [xff]])])
           (Rig.camera [])
           (Some (Rig.shot [10; 20; 30] [Rig.qr [xff]]))
           (Rig.shot [10; 20; 30] [Rig.qr [xff]])
           (Rig.shot [30; 20; 10] [Rig.qr [xff]]));
    [reflexivity | reflexivity | reflexivity | reflexivity |].
  apply Exists_cons_hd, lone_ff_not_decodable.
Defined.

(** X8 at the first frame of a session, showing a link. *)
Lemma new_payload_dispatched_once_witness :
  let image := Rig.frame [Rig.qr (bytes_lit Rig.link)] in
  decode (np_array image) !! 0%nat = Some (Rig.qr (bytes_lit Rig.link)) /\
  utf8_decode (data (Rig.qr (bytes_lit Rig.link))) = inr Rig.link /\
  (Rig.link ∉ seen_barcodes Rig.bare) /\
  Rig.link ∈ seen_barcodes (snd (decode_barcodes_over_feed image Rig.bare)) /\
  exists new : list str,
    browser (snd (decode_barcodes_over_feed image Rig.bare)) =
      browser Rig.bare ++ new /\
    NoDup new /\ Rig.link ∈ new.
Proof.
  cbv zeta.
  split; [reflexivity |]. split; [reflexivity |].
  split; [apply not_elem_of_empty |].
  apply (@new_payload_dispatched_once Rig.vision
           (Rig.frame [Rig.qr (bytes_lit Rig.link)]) Rig.bare 0%nat
           (Rig.qr (bytes_lit Rig.link)) Rig.link);
    [reflexivity | reflexivity | apply not_elem_of_empty |].
  intros k c Hk. lia.
Defined.

(** X13 at the row of a link that a still scan has listed. *)
Lemma hand_opened_link_opens_again_witness :
  let row := mkRow (TextInt 0) 1 Rig.link in
  let w := Rig.picked [row] 0 in
  let image := Rig.frame [Rig.qr (bytes_lit Rig.link)] in
  selection w = [0%nat] /\
  tree w !! 0%nat = Some row /\
  startswith Rig.link "https:" = true /\
  (Rig.link ∉ seen_barcodes w) /\
  exists new : list str,
    browser (snd (decode_barcodes_over_feed image
                    (snd (select_link "OK" w)))) =
      browser w ++ [Rig.link] ++ new /\
    Rig.link ∈ new.
Proof.
  cbv zeta.
  split; [reflexivity |]. split; [reflexivity |]. split; [reflexivity |].
  split; [apply not_elem_of_empty |].
  apply (@hand_opened_link_opens_again Rig.vision "OK"
           (Rig.picked [mkRow (TextInt 0) 1 Rig.link] 0) 0%nat []
           (mkRow (TextInt 0) 1 Rig.link)
           (Rig.frame [Rig.qr (bytes_lit Rig.link)]) 0%nat
           (Rig.qr (bytes_lit Rig.link)));
    [reflexivity | reflexivity | reflexivity | apply not_elem_of_empty
    | reflexivity | reflexivity |].
  intros i c Hi. lia.
Defined.

(** X15 at a file that is no image. *)
Lemma unreadable_file_raises_without_alert_witness :
  let w := set_files {[ "captured_image.jpg" := Junk ]} Rig.shown in
  files w !! "captured_image.jpg" = Some Junk /\
  exists msg : str,
    detect_code "captured_image.jpg" w = (inl (OSError msg), scan_begun w) /\
    alerts (snd (detect_code "captured_image.jpg" w)) = alerts w /\
    detector_runs (snd (detect_code "captured_image.jpg" w)) =
      detector_runs w /\
    cam_label (snd (detect_code "captured_image.jpg" w)) = cam_label w /\
    tree (snd (detect_code "captured_image.jpg" w)) = [].
Proof.
  cbv zeta. split; [reflexivity |].
  apply (@unreadable_file_raises_without_alert Rig.vision "captured_image.jpg"
           (set_files {[ "captured_image.jpg" := Junk ]} Rig.shown)).
  left. reflexivity.
Defined.

(** X16 at a saved picture with one symbol. *)
Lemma scan_shows_boxed_picture_witness :
  let codes := [Rig.qr (bytes_lit Rig.link)] in
  let a := Rig.shot [10; 20; 30] codes in
  let gray := Rig.shot [Rig.luma 10 20 30] codes in
  let out := Rig.mkArray [[[30; 20; 10]]] [Rig.Box (0, 0) (1, 1) (255, 0, 0) 4]
               codes in
  let w := Rig.saved a Rig.bare in
  files w !! "captured_image.jpg" = Some (Picture a) /\
  np_size a <> 0 /\
  cv2_cvtColor a COLOR_BGR2GRAY = inr gray /\
  texts_of (decode gray) [Rig.link] /\
  cv2_cvtColor (draw_boxes (decode gray) a) COLOR_BGR2RGB = inr out /\
  fst (detect_code "captured_image.jpg" w) = inr tt /\
  cam_label (snd (detect_code "captured_image.jpg" w)) = Some (fromarray out) /\
  detector_runs (snd (detect_code "captured_image.jpg" w)) =
    detector_runs w ++ [gray] /\
  alerts (snd (detect_code "captured_image.jpg" w)) = alerts w.
Proof.
  cbv zeta.
  split; [reflexivity |]. split; [discriminate |]. split; [reflexivity |].
  split; [repeat constructor |]. split; [reflexivity |].
  apply (@scan_shows_boxed_picture Rig.vision "captured_image.jpg"
           (Rig.shot [10; 20; 30] [Rig.qr (bytes_lit Rig.link)])
           (Rig.shot [Rig.luma 10 20 30] [Rig.qr (bytes_lit Rig.link)])
           (Rig.mkArray [[[30; 20; 10]]] [Rig.Box (0, 0) (1, 1) (255, 0, 0) 4]
              [Rig.qr (bytes_lit Rig.link)])
           [Rig.link]);
    [reflexivity | discriminate | reflexivity | repeat constructor
    | reflexivity].
Defined.

(** X17 at a saved picture with three symbols, the second of which
    carries [b"\xff"]. *)
Lemma scan_stops_at_undecodable_witness :
  let good := [Rig.qr (bytes_lit Rig.link)] in
  let bad := Rig.qr [xff] in
  let rest := [Rig.qr (bytes_lit Rig.ftp)] in
  let a := Rig.shot [10; 20; 30] (good ++ bad :: rest) in
  let gray := Rig.shot [Rig.luma 10 20 30] (good ++ bad :: rest) in
  let w := Rig.saved a Rig.shown in
  files w !! "captured_image.jpg" = Some (Picture a) /\
  np_size a <> 0 /\
  cv2_cvtColor a COLOR_BGR2GRAY = inr gray /\
  decode gray = good ++ bad :: rest /\
  texts_of good [Rig.link] /\
  ~ decodable bad /\
  fst (detect_code "captured_image.jpg" w) = inl UnicodeDecodeError /\
  tree (snd (detect_code "captured_image.jpg" w)) = scan_rows 0 [Rig.link] /\
  cam_label (snd (detect_code "captured_image.jpg" w)) = cam_label w.
Proof.
  cbv zeta.
  split; [reflexivity |]. split; [discriminate |]. split; [reflexivity |].
  split; [reflexivity |]. split; [repeat constructor |].
  split; [apply lone_ff_not_decodable |].
  apply (@scan_stops_at_undecodable Rig.vision "captured_image.jpg"
           (Rig.shot [10; 20; 30]
              ([Rig.qr (bytes_lit Rig.link)] ++ Rig.qr [xff]
               :: [Rig.qr (bytes_lit Rig.ftp)]))
           (Rig.shot [Rig.luma 10 20 30]
              ([Rig.qr (bytes_lit Rig.link)] ++ Rig.qr [xff]
               :: [Rig.qr (bytes_lit Rig.ftp)]))
           [Rig.qr (bytes_lit Rig.link)] [Rig.qr (bytes_lit Rig.ftp)]
           (Rig.qr [xff]) [Rig.link]);
    [reflexivity | discriminate | reflexivity | reflexivity
    | repeat constructor | apply lone_ff_not_decodable].
Defined.
